(** * Panoramisk: the wire-message decoder and the session engine

    A shallow embedding of [panoramisk/message.py] and
    [panoramisk/manager.py], and the properties of the decoder, of the
    structured record and of the engine's callbacks that are stated about
    them.

    Python text ([str]) is a list of Unicode code points.  Exceptions are an
    explicit result type.  What the two modules call in the Python runtime
    ([str.lower], [str.strip], [urllib.parse.unquote], [re], [fnmatch]) and
    the constant [utils.EOL] are fields of an environment the development is
    parametric in; a concrete environment for plain ASCII text ([Ascii7]) is
    what the model is run with on concrete blocks and sessions. *)

From stdpp Require Import base option list gmap strings.
From Stdlib Require Import NArith ZArith Lia.

Set Default Proof Using "Type".

(** ** Python values *)

Abbreviation str := (list N).

(** A string literal of the source, as code points. *)
Fixpoint lit (s : string) : str :=
  match s with
  | EmptyString => []
  | String a s' => Ascii.N_of_ascii a :: lit s'
  end.
Arguments lit _ : simpl never.

Inductive exn := IndexError | ValueError | KeyError | TypeError | AttributeError.

(** The outcome of a call: a returned value or a raised exception. *)
Inductive res (A : Type) :=
  | Ret (a : A)
  | Raise (e : exn).
Arguments Ret {A} a.
Arguments Raise {A} e.

#[global] Instance res_ret : MRet res := @Ret.
#[global] Instance res_bind : MBind res := fun A B f m =>
  match m with
  | Ret a => f a
  | Raise e => Raise e
  end.

#[global] Instance exn_eq_dec : EqDecision exn.
Proof. solve_decision. Defined.

Module PyStr.

(** [s.startswith(p)] *)
Fixpoint startswith (p s : str) : bool :=
  match p, s with
  | [], _ => true
  | a :: p', b :: s' => bool_decide (a = b) && startswith p' s'
  | _ :: _, [] => false
  end.

(** [s.find(sep)]: the index of the first occurrence of [sep] in [s]. *)
Fixpoint find (sep s : str) : option nat :=
  if startswith sep s then Some 0
  else match s with
       | [] => None
       | _ :: s' => S <$> find sep s'
       end.

(** [sep in s] *)
Definition contains (sep s : str) : bool :=
  match find sep s with Some _ => true | None => false end.

(** [s.split(sep, 1)]: at most one split, at the first occurrence. *)
Definition split1 (sep s : str) : list str :=
  match find sep s with
  | Some i => [take i s; drop (i + length sep) s]
  | None => [s]
  end.

(** [s.split(sep)] cuts at the successive non-overlapping occurrences of
    [sep], left to right.  Every cut consumes at least one code point when
    [sep] is not empty, so [length s] cuts are enough. *)
Fixpoint split_upto (n : nat) (sep s : str) : list str :=
  match n with
  | 0 => [s]
  | S n' =>
      match find sep s with
      | Some i => take i s :: split_upto n' sep (drop (i + length sep) s)
      | None => [s]
      end
  end.

(** [s.split(sep)]; an empty separator is a [ValueError]. *)
Definition split (sep s : str) : res (list str) :=
  match sep with
  | [] => Raise ValueError
  | _ :: _ => Ret (split_upto (length s) sep s)
  end.

(** [a, b = l]: unpacking a list into exactly two names. *)
Definition unpack2 (l : list str) : res (str * str) :=
  match l with
  | [a; b] => Ret (a, b)
  | _ => Raise ValueError
  end.

(** [sep.join(parts)], used to write blocks down line by line. *)
Fixpoint join (sep : str) (parts : list str) : str :=
  match parts with
  | [] => []
  | [p] => p
  | p :: ps => p ++ sep ++ join sep ps
  end.

End PyStr.

(** [l.pop()]: removes and returns the last item; [IndexError] on [[]]. *)
Definition pop {A} (l : list A) : res (A * list A) :=
  match last l with
  | Some x => Ret (x, removelast l)
  | None => Raise IndexError
  end.

(** [l[0]] *)
Definition first_item {A} (l : list A) : res A :=
  match l with
  | x :: _ => Ret x
  | [] => Raise IndexError
  end.

(** The value of a header: one string, or the list of a repeated header. *)
Inductive hvalue :=
  | Scalar (v : str)
  | Multi (vs : list str).

#[global] Instance hvalue_eq_dec : EqDecision hvalue.
Proof. solve_decision. Defined.

(** A Python [dict] with string keys, in insertion order. *)
Module PyDict.

Definition t (V : Type) := list (str * V).

Fixpoint get {V} (k : str) (d : t V) : option V :=
  match d with
  | [] => None
  | (k', v) :: d' => if decide (k' = k) then Some v else get k d'
  end.

(** [k in d] *)
Definition mem {V} (k : str) (d : t V) : bool :=
  match get k d with Some _ => true | None => false end.

(** [d[k] = v]: an existing key keeps its place, a new one goes last. *)
Fixpoint set {V} (k : str) (v : V) (d : t V) : t V :=
  match d with
  | [] => [(k, v)]
  | (k', v') :: d' =>
      if decide (k' = k) then (k, v) :: d' else (k', v') :: set k v d'
  end.

End PyDict.

(** ** The Python runtime and [utils.EOL] *)

Class Env := {
  (** [str.lower] *)
  lower : str -> str;
  (** [str.strip] *)
  strip : str -> str;
  (** [urllib.parse.unquote] *)
  unquote : str -> str;
  (** [urllib.parse.unquote_plus] *)
  unquote_plus : str -> str;
  (** [utils.EOL], the end-of-line marker of the protocol; [utils] is not
      part of the sources at hand, so the constant is a parameter. *)
  EOL : str;
}.


(** ** message.py *)

Section Message.
Context `{Env}.
(** The type of the session a record can point back to
    ([Message.manager]). *)
Context {session : Type}.

(** Modelled from the spec: [utils.CaseInsensitiveDict], the "simple
    case-insensitive mapping utility" that [Message] extends and whose module
    is not part of the sources: an ordered mapping from header names, compared
    case-insensitively, to values; both subscript and attribute-like reads,
    "with unknown fields returning an empty string rather than raising".  The
    mapping is kept as a [dict] keyed by the lowered name; constructing it
    from a [dict] and keyword arguments stores the items of the first, then
    those of the second, in order. *)
Definition CaseInsensitiveDict := PyDict.t hvalue.

(** Modelled from the spec: [key in d] of [utils.CaseInsensitiveDict]. *)
Definition ci_contains (key : str) (d : CaseInsensitiveDict) : bool :=
  PyDict.mem (lower key) d.

(** Modelled from the spec: [d[key] = value] of [utils.CaseInsensitiveDict]. *)
Definition ci_setitem (key : str) (value : hvalue) (d : CaseInsensitiveDict)
  : CaseInsensitiveDict :=
  PyDict.set (lower key) value d.

(** Modelled from the spec: [d.get(key, default)] of
    [utils.CaseInsensitiveDict]. *)
Definition ci_get (key : str) (default : hvalue) (d : CaseInsensitiveDict)
  : hvalue :=
  match PyDict.get (lower key) d with
  | Some v => v
  | None => default
  end.

(** Modelled from the spec: [d.attr] of [utils.CaseInsensitiveDict], the
    attribute-like read: [d.get(attr, '')]. *)
Definition ci_getattr (attr : str) (d : CaseInsensitiveDict) : hvalue :=
  ci_get attr (Scalar []) d.

(** Modelled from the spec: [CaseInsensitiveDict(data, **kwargs)]. *)
Definition ci_init (data kwargs : PyDict.t hvalue) : CaseInsensitiveDict :=
  foldl (fun d kv => ci_setitem kv.1 kv.2 d) [] (data ++ kwargs).

(** [class Message(utils.CaseInsensitiveDict)]: the mapping and the
    back-reference [self.manager]. *)
Record Message := mkMessage {
  items : CaseInsensitiveDict;
  manager : option session;
}.

Definition quoted_keys : list str := [lit "result"].
Definition success_responses : list str :=
  [lit "Success"; lit "Follows"; lit "Goodbye"].

(** [Message.__init__(self, headers, content="")]: the body is handed to the
    mapping as the keyword argument [content] (the class docstring shows it
    among the items: [<Message Response='Follows' content='Response body'>]). *)
Definition Message_init (headers : PyDict.t hvalue) (content : str) : Message :=
  {| items := ci_init headers [(lit "content", Scalar content)];
     manager := None |}.

(** [x in l] for a header value [x] and a list [l] of strings: a list value
    equals no string. *)
Definition value_in (x : hvalue) (l : list str) : bool :=
  match x with
  | Scalar s => bool_decide (s ∈ l)
  | Multi _ => false
  end.

(** [Message.success] *)
Definition success (self : Message) : bool :=
  if ci_contains (lit "event") (items self) then true
  else if value_in (ci_getattr (lit "response") (items self)) success_responses
       then true
       else false.

(** [self.content] *)
Definition content_of (self : Message) : hvalue :=
  ci_getattr (lit "content") (items self).

Definition has_body : list str :=
  [lit "Response: Follows"; lit "Response: Fail"; lit "Event: ReceivedSMS"].

(** [s.startswith(prefixes)] for a tuple of prefixes. *)
Definition startswith_any (prefixes : list str) (s : str) : bool :=
  existsb (fun p => PyStr.startswith p s) prefixes.

(** The character U+FEFF. *)
Definition BOM : str := [65279%N].

(** [while not content and mlines: content = mlines.pop()], on the lines in
    reverse (the last line first). *)
Fixpoint skip_empty (content : str) (rlines : list str) : str * list str :=
  match content, rlines with
  | [], l :: rlines' => skip_empty l rlines'
  | _, _ => (content, rlines)
  end.

Definition while_empty_pop (content : str) (mlines : list str)
  : str * list str :=
  let '(c, r) := skip_empty content (reverse mlines) in (c, reverse r).

(** Lines 126 to 138 of [from_line]: the body and the lines left. *)
Definition extract_body (mlines : list str) : res (str * list str) :=
  l0 ← first_item mlines;
  if startswith_any has_body l0 then
    '(content, mlines) ←
      (if bool_decide (l0 = lit "Event: ReceivedSMS") then
         '(_, mlines) ← pop mlines;
         '(content, mlines) ← pop mlines;
         '(_, content) ← PyStr.unpack2 (PyStr.split1 (lit ": ") content);
         let content := unquote_plus content in
         let content :=
           if PyStr.startswith BOM content then drop 1 content else content in
         Ret (content, mlines)
       else pop mlines);
    Ret (while_empty_pop content mlines)
  else Ret ([], mlines).

(** The body of the loop of lines 139 to 151, for one line. *)
Definition add_header (headers : PyDict.t hvalue) (mline : str)
  : res (PyDict.t hvalue) :=
  if PyStr.contains (lit ": ") mline then
    '(k, v) ← PyStr.unpack2 (PyStr.split1 (lit ": ") mline);
    let v := if bool_decide (lower k ∈ quoted_keys) then strip (unquote v)
             else v in
    match PyDict.get k headers with
    | Some o =>
        let o := match o with Multi l => l | Scalar s => [s] end in
        Ret (PyDict.set k (Multi (o ++ [v])) headers)
    | None => Ret (PyDict.set k (Scalar v) headers)
    end
  else Ret headers.

(** [for mline in mlines: ...] *)
Fixpoint parse_headers (mlines : list str) (headers : PyDict.t hvalue)
  : res (PyDict.t hvalue) :=
  match mlines with
  | [] => Ret headers
  | mline :: mlines' =>
      headers ← add_header headers mline;
      parse_headers mlines' headers
  end.

(** [Message.from_line(line)]: [Ret None] when the function falls off its
    end. *)
Definition from_line (line : str) : res (option Message) :=
  mlines ← PyStr.split EOL line;
  '(content, mlines) ← extract_body mlines;
  headers ← parse_headers mlines [];
  if PyDict.mem (lit "Event") headers || PyDict.mem (lit "Response") headers
  then Ret (Some (Message_init headers content))
  else Ret None.

(** The character U+000A, [chr(10)]. *)
Definition LF : str := [10%N].

(** [Message.iter_lines(self)], as the list of what the generator yields; a
    list value has no [split] ([AttributeError]). *)
Definition iter_lines (self : Message) : res (list str) :=
  match content_of self with
  | Scalar content => PyStr.split LF content
  | Multi _ => Raise AttributeError
  end.

(** The loop of [Message.getdict]: [k, v = item.split("=", 1)] and
    [result[k] = v], for every item. *)
Fixpoint getdict_items (values : list str) (result : CaseInsensitiveDict)
  : res CaseInsensitiveDict :=
  match values with
  | [] => Ret result
  | item :: values' =>
      '(k, v) ← PyStr.unpack2 (PyStr.split1 (lit "=") item);
      getdict_items values' (ci_setitem k (Scalar v) result)
  end.

(** [Message.getdict(self, key)]: [self.get(key, None)] must be a list. *)
Definition getdict (key : str) (self : Message) : res CaseInsensitiveDict :=
  match PyDict.get (lower key) (items self) with
  | Some (Multi values) => getdict_items values []
  | Some (Scalar _) | None => Raise TypeError
  end.

End Message.


(** ** manager.py *)

(** [re] and [fnmatch] of the Python runtime. *)
Class Matcher := {
  regex : Type;
  (** [fnmatch.translate] *)
  fnmatch_translate : str -> str;
  (** [re.compile], on the expressions [fnmatch.translate] produces *)
  re_compile : str -> regex;
  (** [regexp.match(s) is not None] *)
  re_match : regex -> str -> bool;
}.

(** Modelled from the spec: [actions.Action], whose module is not part of the
    sources: "a mapping of header name to value representing an outgoing
    command", read case-insensitively like the records, extended with "a
    result sink (a single-assignment future-like handle)" and its [as_list]
    flag.  [done] is what the sink's [done()] answers: whether it has been
    resolved or cancelled. *)
Record Action := mkAction {
  fields : PyDict.t str;
  as_list : option bool;
  done : bool;
}.

#[global] Instance Action_eq_dec : EqDecision Action.
Proof. solve_decision. Defined.

(** The callables that are registered for events: the engine's own bound
    method [self.send_awaiting_actions], or a callable of the caller. *)
Inductive Callback :=
  | bound_send_awaiting_actions
  | callable (n : nat).

#[global] Instance Callback_eq_dec : EqDecision Callback.
Proof. solve_decision. Defined.

(** What the event loop is asked to call. *)
Inductive Target :=
  | hook (n : nat)
  | bound_ping
  | bound_connect.

(** The exception handed to [connection_lost]. *)
Inductive error := Error (message : str).

(** The handle [loop.call_later] returns. *)
Definition TimerHandle := nat.

(** The options [Manager.__init__] reads. *)
Record Config := mkConfig {
  cfg_ping_delay : Z;
  cfg_ping_interval : Z;
  cfg_reconnect_timeout : Z;
  cfg_forgetable_actions : list str;
  cfg_on_login : Target;
  cfg_on_connect : Target;
  cfg_on_disconnect : Target;
}.

(** The module-level functions [on_connect], [on_login], [on_disconnect]. *)
Definition on_connect : Target := hook 0.
Definition on_login : Target := hook 1.
Definition on_disconnect : Target := hook 2.

(** [Manager.defaults], and the default hooks of [__init__]. *)
Definition defaults : Config :=
  {| cfg_ping_delay := 10;
     cfg_ping_interval := 10;
     cfg_reconnect_timeout := 2;
     cfg_forgetable_actions := [lit "ping"; lit "login"];
     cfg_on_login := on_login;
     cfg_on_connect := on_connect;
     cfg_on_disconnect := on_disconnect |}.

Section Manager.
Context `{Env} `{Matcher}.

(** The attributes of a [Manager].  [loop] and [protocol] say whether the
    attribute is set ([None] before [connect] and [connection_made]). *)
Record Manager := mkManager {
  config : Config;
  loop : option unit;
  callbacks : gmap str (list Callback);
  protocol : option unit;
  patterns : list (str * regex);
  authenticated : bool;
  authenticated_future : option Action;
  awaiting_actions : list Action;
  pinger : option TimerHandle;
  _connected : bool;
}.

Definition forgetable_actions (self : Manager) := cfg_forgetable_actions (config self).
Definition ping_delay (self : Manager) := cfg_ping_delay (config self).
Definition ping_interval (self : Manager) := cfg_ping_interval (config self).
Definition reconnect_timeout (self : Manager) := cfg_reconnect_timeout (config self).

(** An argument of a call. *)
Inductive pyarg :=
  | arg_self
  | arg_exc (exc : option error)
  | arg_event (event : @Message Manager).

(** What a method does to the world around the manager, in order. *)
Inductive Effect :=
  (** [loop.call_soon(f, self, ...)] *)
  | call_soon (f : Target) (args : list pyarg)
  (** [loop.call_later(delay, f)], and the handle it returned *)
  | call_later (delay : Z) (f : Target) (h : TimerHandle)
  (** [handle.cancel()] *)
  | cancel (h : TimerHandle)
  (** [protocol.send(action, as_list=as_list)] *)
  | protocol_send (action : Action) (as_list : option bool)
  (** [re.compile(fnmatch.translate(pattern))] *)
  | compile (pattern : str)
  (** [callback(self, event)] for a registered callback *)
  | call (callback : Callback) (args : list pyarg).

Record World := mkWorld {
  trace : list Effect;
  next_handle : TimerHandle;
}.

(** A method: it reads and updates [self], acts on the world, and returns or
    raises. *)
Definition M (A : Type) : Type := Manager -> World -> res A * Manager * World.

#[local] Instance M_ret : MRet M := fun A a self w => (Ret a, self, w).
#[local] Instance M_bind : MBind M := fun A B f c self w =>
  match c self w with
  | (Ret a, self', w') => f a self' w'
  | (Raise e, self', w') => (Raise e, self', w')
  end.

Definition get_self : M Manager := fun self w => (Ret self, self, w).
Definition update (f : Manager -> Manager) : M unit :=
  fun self w => (Ret tt, f self, w).
Definition raise {A} (e : exn) : M A := fun self w => (Raise e, self, w).
(** The world after the effects [es]. *)
Definition add_trace (es : list Effect) (w : World) : World :=
  {| trace := trace w ++ es; next_handle := next_handle w |}.

Definition emit (e : Effect) : M unit :=
  fun self w => (Ret tt, self, add_trace [e] w).
Definition fresh_handle : M TimerHandle :=
  fun self w =>
    (Ret (next_handle w), self,
     {| trace := trace w; next_handle := S (next_handle w) |}).
Definition lift {A} (r : res A) : M A := fun self w => (r, self, w).

(** Assignments to the attributes. *)
Definition set_callbacks (v : gmap str (list Callback)) (m : Manager) :=
  mkManager (config m) (loop m) v (protocol m) (patterns m) (authenticated m)
    (authenticated_future m) (awaiting_actions m) (pinger m) (_connected m).
Definition set_patterns (v : list (str * regex)) (m : Manager) :=
  mkManager (config m) (loop m) (callbacks m) (protocol m) v (authenticated m)
    (authenticated_future m) (awaiting_actions m) (pinger m) (_connected m).
Definition set_authenticated (v : bool) (m : Manager) :=
  mkManager (config m) (loop m) (callbacks m) (protocol m) (patterns m) v
    (authenticated_future m) (awaiting_actions m) (pinger m) (_connected m).
Definition set_authenticated_future (v : option Action) (m : Manager) :=
  mkManager (config m) (loop m) (callbacks m) (protocol m) (patterns m)
    (authenticated m) v (awaiting_actions m) (pinger m) (_connected m).
Definition set_awaiting_actions (v : list Action) (m : Manager) :=
  mkManager (config m) (loop m) (callbacks m) (protocol m) (patterns m)
    (authenticated m) (authenticated_future m) v (pinger m) (_connected m).
Definition set_pinger (v : option TimerHandle) (m : Manager) :=
  mkManager (config m) (loop m) (callbacks m) (protocol m) (patterns m)
    (authenticated m) (authenticated_future m) (awaiting_actions m) v
    (_connected m).
Definition set_connected (v : bool) (m : Manager) :=
  mkManager (config m) (loop m) (callbacks m) (protocol m) (patterns m)
    (authenticated m) (authenticated_future m) (awaiting_actions m) (pinger m)
    v.

(** [self.loop.<method>]: an [AttributeError] while [self.loop] is [None]. *)
Definition the_loop : M unit :=
  self ← get_self;
  match loop self with
  | Some _ => mret tt
  | None => raise AttributeError
  end.

(** [self.loop.call_soon(f, self, ...)] *)
Definition loop_call_soon (f : Target) (args : list pyarg) : M unit :=
  the_loop;; emit (call_soon f args).

(** [self.loop.call_later(delay, f)] *)
Definition loop_call_later (delay : Z) (f : Target) : M TimerHandle :=
  the_loop;;
  h ← fresh_handle;
  emit (call_later delay f h);;
  mret h.

(** [self.callbacks[pattern]] on the [defaultdict(list)]: a missing key is
    entered with an empty list. *)
Definition callbacks_getitem (pattern : str) : M (list Callback) :=
  self ← get_self;
  match callbacks self !! pattern with
  | Some l => mret l
  | None => update (set_callbacks (<[pattern := []]> (callbacks self)));; mret []
  end.

(** Modelled from the spec: [action[key]] of [actions.Action], a
    case-insensitive read that raises [KeyError] on a missing header. *)
Definition action_getitem (key : str) (action : Action) : res str :=
  match PyDict.get (lower key) (fields action) with
  | Some v => Ret v
  | None => Raise KeyError
  end.

(** Modelled from the spec: [action.update(kwargs)] of [actions.Action]. *)
Definition action_update (kwargs : PyDict.t str) (action : Action) : Action :=
  {| fields := foldl (fun d kv => PyDict.set (lower kv.1) kv.2 d)
                 (fields action) kwargs;
     as_list := as_list action;
     done := done action |}.

(** [self.protocol.send(action, as_list=as_list)]: an [AttributeError] while
    [self.protocol] is [None]; what the transport then does is its own. *)
Definition protocol_send_ (action : Action) (as_list : option bool) : M unit :=
  self ← get_self;
  match protocol self with
  | Some _ => emit (protocol_send action as_list)
  | None => raise AttributeError
  end.

(** [Manager.login(future)]; [future_result] is what [future.result()]
    does. *)
Definition login (future_result : res (@Message Manager)) : M bool :=
  update (set_authenticated_future None);;
  resp ← lift future_result;
  update (set_authenticated (success resp));;
  self ← get_self;
  (if authenticated self
   then loop_call_soon (cfg_on_login (config self)) [arg_self]
   else mret tt);;
  (match pinger self with
   | Some h => emit (cancel h)
   | None => mret tt
   end);;
  h ← loop_call_later (ping_delay self) bound_ping;
  update (set_pinger (Some h));;
  self ← get_self;
  mret (authenticated self).

(** [Manager.send_action(action, as_list=None, **kwargs)] *)
Definition send_action (action : Action) (as_list : option bool)
    (kwargs : PyDict.t str) : M unit :=
  protocol_send_ (action_update kwargs action) as_list.

(** The loop of [Manager.send_awaiting_actions], along the queue: [queue] is
    [self.awaiting_actions] at the head of the loop. *)
Fixpoint send_awaiting_actions_from (queue : list Action) : M unit :=
  match queue with
  | [] => mret tt
  | action :: queue' =>
      update (set_awaiting_actions queue');;
      name ← lift (action_getitem (lit "action") action);
      self ← get_self;
      (if negb (bool_decide (lower name ∈ forgetable_actions self))
       then if negb (done action)
            then send_action action (as_list action) []
            else mret tt
       else mret tt);;
      send_awaiting_actions_from queue'
  end.

(** [Manager.send_awaiting_actions] *)
Definition send_awaiting_actions : M unit :=
  self ← get_self;
  send_awaiting_actions_from (awaiting_actions self).

(** What [register_event] returns: the callback, or the decorator
    [_register_event] for the pattern. *)
Inductive registration :=
  | registered (callback : Callback)
  | decorator (pattern : str).

(** The inner function [_register_event(callback)] of [register_event]. *)
Definition _register_event (pattern : str) (callback : Callback) : M Callback :=
  known ← callbacks_getitem pattern;
  (match known with
   | [] =>
       emit (compile pattern);;
       self ← get_self;
       update (set_patterns
         (patterns self ++ [(pattern, re_compile (fnmatch_translate pattern))]))
   | _ :: _ => mret tt
   end);;
  known ← callbacks_getitem pattern;
  self ← get_self;
  update (set_callbacks (<[pattern := known ++ [callback]]> (callbacks self)));;
  mret callback.

(** [Manager.register_event(pattern, callback=None)] *)
Definition register_event (pattern : str) (callback : option Callback)
  : M registration :=
  match callback with
  | Some cb => cb ← _register_event pattern cb; mret (registered cb)
  | None => mret (decorator pattern)
  end.

(** [for callback in self.callbacks[pattern]: callback(self, event)].  A
    callback is a callable of the caller: the call is recorded, and what the
    callable does when called (what it returns, the scheduling of a coroutine
    it returns, a registration it makes in turn) belongs to the call and is
    not followed. *)
Fixpoint call_each (cbs : list Callback) (event : @Message Manager) : M unit :=
  match cbs with
  | [] => mret tt
  | callback :: cbs' =>
      emit (call callback [arg_self; arg_event event]);;
      call_each cbs' event
  end.

(** [regexp.match(event.event)]: a [TypeError] when the header is a list. *)
Definition match_event (regexp : regex) (event : @Message Manager) : M bool :=
  match ci_getattr (lit "event") (items event) with
  | Scalar name => mret (re_match regexp name)
  | Multi _ => raise TypeError
  end.

(** The loop of [Manager.dispatch] over [self.patterns]. *)
Fixpoint dispatch_over (subscriptions : list (str * regex))
    (event : @Message Manager) (matches : list str) : M (list str) :=
  match subscriptions with
  | [] => mret matches
  | (pattern, regexp) :: subscriptions' =>
      matched ← match_event regexp event;
      matches ←
        (if (matched : bool) then
           let matches := matches ++ [pattern] in
           cbs ← callbacks_getitem pattern;
           call_each cbs event;;
           mret matches
         else mret matches);
      dispatch_over subscriptions' event matches
  end.

(** [Manager.dispatch(event)] *)
Definition dispatch (event : @Message Manager) : M (list str) :=
  self ← get_self;
  let event := {| items := items event; manager := Some self |} in
  dispatch_over (patterns self) event [].

(** [Manager.connection_lost(exc)] *)
Definition connection_lost (exc : option error) : M unit :=
  update (set_connected false);;
  self ← get_self;
  loop_call_soon (cfg_on_disconnect (config self)) [arg_self; arg_exc exc];;
  (match pinger self with
   | Some h => emit (cancel h);; update (set_pinger None)
   | None => mret tt
   end);;
  loop_call_later (reconnect_timeout self) bound_connect;;
  mret tt.

(** The attributes [Manager.__init__] sets, for the configuration [cfg]. *)
Definition Manager_attributes (cfg : Config) : Manager :=
  {| config := cfg; loop := None; callbacks := ∅; protocol := None;
     patterns := []; authenticated := false; authenticated_future := None;
     awaiting_actions := []; pinger := None; _connected := false |}.

(** [Manager.__init__]: the attributes, then the registration of
    [send_awaiting_actions] for the event [FullyBooted]. *)
Definition Manager_init (cfg : Config) (w : World)
  : res unit * Manager * World :=
  (register_event (lit "FullyBooted") (Some bound_send_awaiting_actions);;
   mret tt) (Manager_attributes cfg) w.

End Manager.

(** ** An environment for ASCII text

    The functions below agree with the Python runtime on ASCII text (for the
    percent-decoding: when every escape is below [%80]; for the patterns: when
    they hold no bracket expression).  They are what the model is run with on
    concrete blocks. *)

Module Ascii7.

Definition lower_char (c : N) : N :=
  if ((65 <=? c) && (c <=? 90))%N then (c + 32)%N else c.

Definition ascii_lower (s : str) : str := lower_char <$> s.

(** The ASCII whitespace of [str.strip]. *)
Definition is_space (c : N) : bool :=
  ((c =? 32) || ((9 <=? c) && (c <=? 13)) || ((28 <=? c) && (c <=? 31)))%N.

Fixpoint lstrip (s : str) : str :=
  match s with
  | c :: s' => if is_space c then lstrip s' else s
  | [] => []
  end.

Definition ascii_strip (s : str) : str := reverse (lstrip (reverse (lstrip s))).

Definition hex_digit (c : N) : option N :=
  if ((48 <=? c) && (c <=? 57))%N then Some (c - 48)%N
  else if ((65 <=? c) && (c <=? 70))%N then Some (c - 55)%N
  else if ((97 <=? c) && (c <=? 102))%N then Some (c - 87)%N
  else None.

(** [%XX] becomes the character [XX]; a [%] that no two hexadecimal digits
    follow stays. *)
Fixpoint percent_decode (s : str) : str :=
  match s with
  | [] => []
  | c :: t =>
      if (c =? 37)%N then
        match t with
        | a :: b :: t' =>
            match hex_digit a, hex_digit b with
            | Some x, Some y => (16 * x + y)%N :: percent_decode t'
            | _, _ => c :: percent_decode t
            end
        | _ => c :: percent_decode t
        end
      else c :: percent_decode t
  end.

Definition percent_decode_plus (s : str) : str :=
  percent_decode ((fun c => if (c =? 43)%N then 32%N else c) <$> s).

(** Carriage return, line feed. *)
Definition CRLF : str := [13%N; 10%N].

#[export] Instance env : Env :=
  {| lower := ascii_lower;
     strip := ascii_strip;
     unquote := percent_decode;
     unquote_plus := percent_decode_plus;
     EOL := CRLF |}.

(** Glob matching for patterns of literal characters, [*] and [?]. *)
Fixpoint glob (p s : str) : bool :=
  match p with
  | [] => match s with [] => true | _ :: _ => false end
  | c :: p' =>
      if (c =? 42)%N then
        (fix star (s : str) : bool :=
           glob p' s || match s with [] => false | _ :: s' => star s' end) s
      else
        match s with
        | [] => false
        | d :: s' => ((c =? 63)%N || (c =? d)%N) && glob p' s'
        end
  end.

(** The compiled expression is kept as the pattern it stands for. *)
#[export] Instance matcher : Matcher :=
  {| regex := str;
     fnmatch_translate := fun p => p;
     re_compile := fun p => p;
     re_match := glob |}.

(** Lines, and the block they make when joined by the end-of-line marker. *)
Definition lines (l : list string) : list str := lit <$> l.
Definition block (l : list string) : str := PyStr.join CRLF (lines l).

End Ascii7.

(** ** What the statements are written with *)

Section Statements.
Context `{Env} `{Matcher}.

(** The key and the value a header line contributes: the line is cut at its
    first [": "], and the value of a quoted key is percent-decoded and
    trimmed; a line without [": "] contributes nothing. *)
Definition header_item (mline : str) : option (str * str) :=
  match PyStr.find (lit ": ") mline with
  | Some i =>
      let k := take i mline in
      let v := drop (i + 2) mline in
      Some (k, if bool_decide (lower k ∈ quoted_keys) then strip (unquote v)
               else v)
  | None => None
  end.

(** The values of the lines whose key is [k], spelled exactly so, in line
    order. *)
Definition values_of (k : str) (mlines : list str) : list str :=
  omap (fun mline =>
          match header_item mline with
          | Some (k', v) => if decide (k' = k) then Some v else None
          | None => None
          end) mlines.

(** The values of the lines whose key is [k] up to letter case. *)
Definition values_of_nocase (k : str) (mlines : list str) : list str :=
  omap (fun mline =>
          match header_item mline with
          | Some (k', v) => if decide (lower k' = lower k) then Some v else None
          | None => None
          end) mlines.

(** A header that never occurs is absent, one that occurs once is a string,
    one that occurs more often is the list of its values. *)
Definition collect (vs : list str) : option hvalue :=
  match vs with
  | [] => None
  | [v] => Some (Scalar v)
  | _ :: _ :: _ => Some (Multi vs)
  end.

(** [k in headers] when keys are compared up to letter case. *)
Definition mem_nocase (k : str) (headers : PyDict.t hvalue) : bool :=
  existsb (fun kv => bool_decide (lower kv.1 = lower k)) headers.

(** A string without its leading U+FEFF, if it has one. *)
Definition without_bom (s : str) : str :=
  match s with
  | c :: s' => if (c =? 65279)%N then s' else s
  | [] => []
  end.

(** [found] and [rest] are what is left of the body [content] and of the
    lines [mlines] once trailing lines have been taken for the body for as
    long as the body was empty and a line remained. *)
Definition taken_until_nonempty (content : str) (mlines : list str)
    (found : str) (rest : list str) : Prop :=
  (content <> [] /\ found = content /\ rest = mlines) \/
  (content = [] /\
   exists n : nat,
     (found <> [] /\ mlines = rest ++ found :: replicate n []) \/
     (found = [] /\ rest = [] /\ mlines = replicate n [])).

(** The type of a queued action: its [action] header, lowered. *)
Definition action_type (action : Action) : option str :=
  lower <$> PyDict.get (lower (lit "action")) (fields action).

(** Whether the type of the action is one of [forgetable]. *)
Definition is_forgetable (forgetable : list str) (action : Action) : bool :=
  match action_type action with
  | Some t => bool_decide (t ∈ forgetable)
  | None => false
  end.

(** What the drain of the queue does with an action: it is sent again when
    its type is not forgetable and its sink is not done. *)
Definition resent (forgetable : list str) (action : Action) : bool :=
  negb (is_forgetable forgetable action) && negb (done action).

(** What C1 says the drain does: only an action that is forgetable and done
    is left out. *)
Definition resent_as_claimed (forgetable : list str) (action : Action) : bool :=
  negb (is_forgetable forgetable action && done action).

(** The callbacks registered for a pattern. *)
Definition callbacks_of (self : Manager) (pattern : str) : list Callback :=
  default [] (callbacks self !! pattern).

(** The subscriptions of a manager are well formed: no pattern has two
    entries in [self.patterns], and the patterns there are those with a
    callback in [self.callbacks]. *)
Definition registry_ok (self : Manager) : Prop :=
  NoDup (patterns self).*1 /\
  forall p, p ∈ (patterns self).*1 <-> callbacks_of self p <> [].

(** The patterns of the subscriptions whose matcher accepts [name], in the
    order of [self.patterns]. *)
Definition matching (self : Manager) (name : str) : list str :=
  (filter (fun s => re_match s.2 name) (patterns self)).*1.

(** The calls [dispatch] makes for the matched patterns: every callback of
    every pattern, in order. *)
Definition calls_for (self : Manager) (event : @Message Manager)
    (matched : list str) : list Effect :=
  flat_map (fun p => (fun cb => call cb [arg_self; arg_event event])
                       <$> callbacks_of self p) matched.

(** The line [key: value] of a header. *)
Definition header_line (kv : str * str) : str := kv.1 ++ lit ": " ++ kv.2.

(** The key and the value of an item [key=value] of a multi-valued header,
    cut at its first [=]; nothing for an item without [=]. *)
Definition dict_item (item : str) : option (str * str) :=
  match PyStr.find (lit "=") item with
  | Some i => Some (take i item, drop (i + 1) item)
  | None => None
  end.

(** The value of the last of the items whose key is [name] up to letter
    case. *)
Definition last_item_value (name : str) (values : list str) : option str :=
  last (omap (fun item =>
                match dict_item item with
                | Some (k, v) =>
                    if decide (lower k = lower name) then Some v else None
                | None => None
                end) values).

(** The keepalive timers that the effects [es] leave scheduled and not
    cancelled, after [pending]. *)
Fixpoint pending_pings (es : list Effect) (pending : list TimerHandle)
  : list TimerHandle :=
  match es with
  | [] => pending
  | call_later _ bound_ping h :: es' => pending_pings es' (pending ++ [h])
  | cancel h :: es' =>
      pending_pings es' (filter (fun h' => h' <> h) pending)
  | _ :: es' => pending_pings es' pending
  end.

(** The only keepalive timer scheduled and not cancelled is [self.pinger]. *)
Definition keepalive_ok (self : Manager) (w : World) : Prop :=
  pending_pings (trace w) [] = option_list (pinger self).

(** The patterns that were compiled, in order. *)
Definition compiled (es : list Effect) : list str :=
  omap (fun e => match e with compile p => Some p | _ => None end) es.


(** A method that leaves the subscriptions alone: whatever it returns or
    raises, the patterns and the callbacks of every pattern are as before,
    and nothing was compiled. *)
Definition keeps_subscriptions {A} (c : M A) : Prop :=
  forall (self : Manager) (w : World),
    patterns (c self w).1.2 = patterns self /\
    (forall p, callbacks_of (c self w).1.2 p = callbacks_of self p) /\
    compiled (trace (c self w).2) = compiled (trace w).

(** An update of the attributes that leaves the subscriptions alone. *)
Definition keeps_registry_fields (f : Manager -> Manager) : Prop :=
  forall self, patterns (f self) = patterns self /\
               callbacks (f self) = callbacks self.

End Statements.

(** ** Blocks, records and sessions to run the model on *)

Module Samples.
Import Ascii7.

Definition lowercase_event_lines : list str :=
  lines ["event: Hangup"; "Channel: SIP/1"].
Definition lowercase_event : str := PyStr.join CRLF lowercase_event_lines.

Definition mixed_case_lines : list str :=
  lines ["Event: VarSet"; "Variable: a"; "variable: b"].
Definition mixed_case : str := PyStr.join CRLF mixed_case_lines.

Definition repeated_key_lines : list str :=
  lines ["Event: Status"; "ChanVariable: FROM_DID="; "Privilege: Call";
         "ChanVariable: SIPURI=sip:42"; "ChanVariable: X=1"].
Definition repeated_key : str := PyStr.join CRLF repeated_key_lines.

Definition sms_header_lines : list str :=
  lines ["Event: ReceivedSMS"; "Sender: 123"].
Definition sms_block : str :=
  block ["Event: ReceivedSMS"; "Sender: 123"; "Message: %68%65%6c%6c%6f+you";
         ""].

Definition sms_only_first_line : str := block ["Event: ReceivedSMS"].

Definition sms_without_separator : str :=
  block ["Event: ReceivedSMS"; "no separator here"; ""].

(** A session after [__init__], [connect] and [connection_made]: the loop
    and the protocol are set, and a keepalive timer is pending. *)
Definition started : Manager :=
  let m := (Manager_init defaults (mkWorld [] 0)).1.2 in
  mkManager (config m) (Some tt) (callbacks m) (Some tt) (patterns m) false
    None [] (Some 7) true.

Definition world0 : World := mkWorld [] 8.

Definition ping_action : Action :=
  mkAction [(lit "action", lit "Ping")] None false.
Definition status_done : Action :=
  mkAction [(lit "action", lit "Status")] (Some false) true.
Definition status_pending : Action :=
  mkAction [(lit "action", lit "Status"); (lit "actionid", lit "42")]
    (Some true) false.

(** The session with three actions waiting. *)
Definition queued : Manager :=
  set_awaiting_actions [ping_action; status_done; status_pending] started.

(** The session after three more registrations. *)
Definition subscribed : Manager :=
  let r1 := register_event (lit "Hang*") (Some (callable 1)) started world0 in
  let r2 := register_event (lit "Hang*") (Some (callable 2)) r1.1.2 r1.2 in
  let r3 := register_event (lit "*") (Some (callable 3)) r2.1.2 r2.2 in
  r3.1.2.

Definition hangup_event : @Message Manager :=
  Message_init [(lit "Event", Scalar (lit "Hangup"))] [].

Definition error_response : @Message Manager :=
  Message_init [(lit "Response", Scalar (lit "Error"))] [].

Definition success_response : @Message Manager :=
  Message_init [(lit "Response", Scalar (lit "Success"))] [].

Definition follows_lines : list str :=
  lines ["Response: Follows"; "Privilege: Command"; "body text"; ""; ""].
Definition follows_block : str := PyStr.join CRLF follows_lines.

Definition body_only_block : str := block ["Response: Follows"; ""; ""].

Definition two_events_block : str := block ["Event: Newchannel"; "Event: Hangup"].

(** The record of the docstring of [getdict]. *)
Definition chanvariable_response : @Message Manager :=
  Message_init
    [(lit "Response", Scalar (lit "Success"));
     (lit "ChanVariable",
      Multi [lit "FROM_DID="; lit "SIPURI=sip:42@10.10.10.1:4242"])] [].

(** The world in which the keepalive timer of [started] was scheduled. *)
Definition world_started : World := mkWorld [call_later 10 bound_ping 7] 8.

(** A session just after [__init__]: no loop, no protocol. *)
Definition fresh : Manager := (Manager_init defaults (mkWorld [] 0)).1.2.

Definition untyped_action : Action :=
  mkAction [(lit "command", lit "core show version")] None false.

(** The started session with an action without [action] header in its
    queue. *)
Definition queued_untyped : Manager :=
  set_awaiting_actions [status_pending; untyped_action; ping_action] started.

(** The fresh session with actions queued before any connection. *)
Definition queued_early : Manager :=
  set_awaiting_actions [ping_action; status_pending; status_done] fresh.

Definition two_events : @Message Manager :=
  Message_init
    [(lit "Event", Multi [lit "Newchannel"; lit "Hangup"])] [].


End Samples.

(** ** Properties of the string operations *)

Section StringFacts.

Lemma startswith_spec (p s : str) :
  PyStr.startswith p s = true -> s = p ++ drop (length p) s.
Proof.
  revert s. induction p as [|a p IH]; intros s Hs; [done|].
  destruct s as [|b s]; [done|]. simpl in Hs.
  apply andb_true_iff in Hs as [Hab Hs]. apply bool_decide_eq_true in Hab.
  subst b. simpl. f_equal. by apply IH.
Qed.

(** [find] returns a place where the separator is. *)
Lemma find_Some (sep s : str) (i : nat) :
  PyStr.find sep s = Some i ->
  s = take i s ++ sep ++ drop (i + length sep) s.
Proof.
  revert i. induction s as [|c s IH]; intros i Hf.
  - simpl in Hf. destruct (PyStr.startswith sep []) eqn:Hp; [|done].
    injection Hf as <-. by apply startswith_spec in Hp.
  - simpl in Hf. destruct (PyStr.startswith sep (c :: s)) eqn:Hp.
    + injection Hf as <-. by apply startswith_spec in Hp.
    + destruct (PyStr.find sep s) as [j|] eqn:Hj; [|done].
      injection Hf as <-. simpl. f_equal. by apply IH.
Qed.

Lemma find_nil (sep : str) : sep <> [] -> PyStr.find sep [] = None.
Proof. by destruct sep. Qed.

Lemma split_upto_nonempty (n : nat) (sep s : str) : PyStr.split_upto n sep s <> [].
Proof. destruct n; simpl; [done|]. by destruct (PyStr.find sep s). Qed.

(** Joining the pieces of a split gives the string back. *)
Lemma join_split_upto (n : nat) (sep s : str) :
  PyStr.join sep (PyStr.split_upto n sep s) = s.
Proof.
  revert s. induction n as [|n IH]; intros s; [done|]. simpl.
  destruct (PyStr.find sep s) as [i|] eqn:Hf; [|done].
  pose proof (split_upto_nonempty n sep (drop (i + length sep) s)) as Hne.
  simpl. destruct (PyStr.split_upto n sep (drop (i + length sep) s))
    as [|piece pieces] eqn:Hsplit; [done|].
  rewrite <- Hsplit, IH. symmetry. by apply find_Some.
Qed.

(** [length s] cuts are enough: more of them change nothing. *)
Lemma split_upto_enough (sep : str) (n m : nat) (s : str) :
  sep <> [] -> length s <= n -> length s <= m ->
  PyStr.split_upto n sep s = PyStr.split_upto m sep s.
Proof.
  intros Hsep. revert m s. induction n as [|n IH]; intros m s Hn Hm.
  - destruct s; [|simpl in Hn; lia]. destruct m; [done|].
    cbn [PyStr.split_upto]. by rewrite find_nil.
  - destruct m as [|m].
    + destruct s; [|simpl in Hm; lia].
      cbn [PyStr.split_upto]. by rewrite find_nil.
    + simpl. destruct (PyStr.find sep s) as [i|]; [|done]. f_equal.
      assert (1 <= length sep) by (destruct sep; [done|simpl; lia]).
      apply IH; rewrite length_drop; lia.
Qed.

(** A split on a separator that is not empty returns, and its pieces joined
    by the separator are the string. *)
Lemma split_join (sep s : str) :
  sep <> [] ->
  exists pieces, PyStr.split sep s = Ret pieces /\ PyStr.join sep pieces = s.
Proof.
  intros Hsep. destruct sep as [|c sep]; [done|].
  eexists. split; [reflexivity|]. apply join_split_upto.
Qed.

End StringFacts.

(** ** Properties of the decoder *)

Section DictFacts.
Context {V : Type}.

Lemma dict_get_set_eq (k : str) (v : V) (d : PyDict.t V) :
  PyDict.get k (PyDict.set k v d) = Some v.
Proof.
  induction d as [|[k' v'] d IH]; simpl.
  - by rewrite decide_True.
  - destruct (decide (k' = k)) as [->|Hne]; simpl.
    + by rewrite decide_True.
    + by rewrite decide_False.
Qed.

Lemma dict_get_set_ne (k k0 : str) (v : V) (d : PyDict.t V) :
  k <> k0 -> PyDict.get k0 (PyDict.set k v d) = PyDict.get k0 d.
Proof.
  intros Hne. induction d as [|[k' v'] d IH]; simpl.
  - by rewrite decide_False.
  - destruct (decide (k' = k)) as [->|Hne']; simpl.
    + by rewrite !decide_False.
    + by rewrite IH.
Qed.

End DictFacts.

Section DecoderFacts.
Context `{Env} {session : Type}.

Lemma collect_snoc (vs : list str) (v : str) :
  collect (vs ++ [v]) =
  Some match collect vs with
       | None => Scalar v
       | Some (Scalar s) => Multi [s; v]
       | Some (Multi l) => Multi (l ++ [v])
       end.
Proof. destruct vs as [|a [|b vs]]; reflexivity. Qed.

(** One turn of the header loop never raises, and sets the key of the line. *)
Lemma add_header_item (headers : PyDict.t hvalue) (mline : str) :
  add_header headers mline =
  Ret match header_item mline with
      | Some (k, v) =>
          PyDict.set k
            match PyDict.get k headers with
            | None => Scalar v
            | Some (Scalar s) => Multi [s; v]
            | Some (Multi l) => Multi (l ++ [v])
            end headers
      | None => headers
      end.
Proof.
  unfold add_header, header_item, PyStr.contains, PyStr.split1.
  destruct (PyStr.find (lit ": ") mline) as [i|]; [|done].
  simpl. destruct (PyDict.get (take i mline) headers) as [[s|l]|]; done.
Qed.

Lemma values_of_snoc (k : str) (mlines : list str) (mline : str) :
  values_of k (mlines ++ [mline]) =
  values_of k mlines ++
  match header_item mline with
  | Some (k', v) => if decide (k' = k) then [v] else []
  | None => []
  end.
Proof.
  unfold values_of. rewrite omap_app. f_equal. simpl.
  destruct (header_item mline) as [[k' v]|]; [|done].
  by destruct (decide (k' = k)).
Qed.

(** The header loop, started on the map of the lines [seen], ends on the
    map of the lines [seen ++ mlines]. *)
Lemma parse_headers_collects (mlines seen : list str) (headers : PyDict.t hvalue) :
  (forall k, PyDict.get k headers = collect (values_of k seen)) ->
  exists headers',
    parse_headers mlines headers = Ret headers' /\
    forall k, PyDict.get k headers' = collect (values_of k (seen ++ mlines)).
Proof.
  revert seen headers.
  induction mlines as [|mline mlines IH]; intros seen headers Hinv.
  - exists headers. by rewrite app_nil_r.
  - simpl. rewrite add_header_item. simpl.
    replace (seen ++ mline :: mlines) with ((seen ++ [mline]) ++ mlines)
      by by rewrite <- app_assoc.
    apply IH. intros k. rewrite values_of_snoc.
    destruct (header_item mline) as [[k' v]|].
    + destruct (decide (k' = k)) as [->|Hne].
      * rewrite dict_get_set_eq, collect_snoc, <- Hinv. done.
      * rewrite dict_get_set_ne, app_nil_r by done. apply Hinv.
    + rewrite app_nil_r. apply Hinv.
Qed.

Lemma parse_headers_total (mlines : list str) :
  exists headers,
    parse_headers mlines [] = Ret headers /\
    forall k, PyDict.get k headers = collect (values_of k mlines).
Proof. apply (parse_headers_collects mlines []). done. Qed.

Lemma mem_collect (k : str) (vs : list str) (headers : PyDict.t hvalue) :
  PyDict.get k headers = collect vs ->
  PyDict.mem k headers = bool_decide (vs <> []).
Proof.
  unfold PyDict.mem. intros ->. destruct vs as [|a [|b vs]]; done.
Qed.

(** [from_line] once the lines are cut and the body is taken. *)
Lemma from_line_after_body (line : str) (mlines hl : list str) (content : str) :
  PyStr.split EOL line = Ret mlines ->
  extract_body mlines = Ret (content, hl) ->
  from_line (session := session) line =
  headers ← parse_headers hl [];
  if PyDict.mem (lit "Event") headers || PyDict.mem (lit "Response") headers
  then Ret (Some (Message_init headers content))
  else Ret None.
Proof. intros Hs Hb. unfold from_line. rewrite Hs. simpl. rewrite Hb. done. Qed.

End DecoderFacts.

Section DecoderBody.
Context `{Env} {session : Type}.

Lemma res_bind_ret {A B} (a : A) (f : A -> res B) : (Ret a ≫= f) = f a.
Proof. reflexivity. Qed.

Lemma pop_snoc {A} (l : list A) (x : A) : pop (l ++ [x]) = Ret (x, l).
Proof. unfold pop. by rewrite last_snoc, removelast_last. Qed.

Lemma without_bom_spec (s : str) :
  (if PyStr.startswith BOM s then drop 1 s else s) = without_bom s.
Proof.
  destruct s as [|c s]; [done|]. unfold BOM, without_bom. simpl.
  rewrite andb_true_r, drop_0.
  destruct (N.eqb_spec c 65279) as [->|Hne].
  - by rewrite bool_decide_eq_true_2.
  - by rewrite bool_decide_eq_false_2.
Qed.

Lemma skip_empty_spec (rlines : list str) (content found : str) (rest : list str) :
  skip_empty content rlines = (found, rest) ->
  (content <> [] /\ found = content /\ rest = rlines) \/
  (content = [] /\
   exists n : nat,
     (found <> [] /\ rlines = replicate n [] ++ found :: rest) \/
     (found = [] /\ rest = [] /\ rlines = replicate n [])).
Proof.
  revert content. induction rlines as [|l rlines IH]; intros content Hs.
  - destruct content as [|c content]; simpl in Hs; simplify_eq.
    + right. split; [done|]. exists 0. right. done.
    + left. done.
  - destruct content as [|c content]; simpl in Hs.
    + right. split; [done|].
      destruct (IH _ Hs) as [(Hl & -> & ->)|(-> & n & Hn)].
      * exists 0. left. done.
      * exists (S n). destruct Hn as [(Hf & ->)|(-> & -> & ->)].
        -- left. done.
        -- right. done.
    + simplify_eq. left. done.
Qed.

Lemma while_empty_pop_spec (mlines : list str) (content : str) :
  taken_until_nonempty content mlines
    (while_empty_pop content mlines).1 (while_empty_pop content mlines).2.
Proof.
  unfold while_empty_pop, taken_until_nonempty.
  destruct (skip_empty content (reverse mlines)) as [found rest] eqn:Hs.
  simpl. apply skip_empty_spec in Hs as [(Hc & -> & ->)|(-> & n & Hn)].
  - left. by rewrite reverse_involutive.
  - right. split; [done|]. exists n.
    destruct Hn as [(Hf & Hr)|(-> & -> & Hr)].
    + left. split; [done|].
      apply (f_equal reverse) in Hr. rewrite reverse_involutive in Hr.
      rewrite Hr, reverse_app, reverse_cons, reverse_replicate, <- app_assoc.
      done.
    + right. split; [done|]. split; [done|].
      apply (f_equal reverse) in Hr. rewrite reverse_involutive in Hr.
      by rewrite Hr, reverse_replicate.
Qed.

Lemma split1_at (sep label rest : str) :
  PyStr.find sep (label ++ sep ++ rest) = Some (length label) ->
  PyStr.split1 sep (label ++ sep ++ rest) = [label; rest].
Proof.
  intros Hf. unfold PyStr.split1. rewrite Hf.
  rewrite take_app_length, app_assoc, <- length_app, drop_app_length. done.
Qed.

(** The body of a block that starts with the line [Event: ReceivedSMS], ends
    with a line to discard and has its body line before it. *)
Lemma extract_body_sms (pre : list str) (label rest last : str) :
  first_item (pre ++ [label ++ lit ": " ++ rest; last])
    = Ret (lit "Event: ReceivedSMS") ->
  PyStr.find (lit ": ") (label ++ lit ": " ++ rest) = Some (length label) ->
  extract_body (pre ++ [label ++ lit ": " ++ rest; last]) =
  Ret (while_empty_pop (without_bom (unquote_plus rest)) pre).
Proof.
  intros H0 Hf. unfold extract_body. rewrite H0, res_bind_ret.
  change (startswith_any has_body (lit "Event: ReceivedSMS")) with true.
  rewrite bool_decide_eq_true_2 by done. cbv iota.
  replace (pre ++ [label ++ lit ": " ++ rest; last])
    with ((pre ++ [label ++ lit ": " ++ rest]) ++ [last])
    by by rewrite <- app_assoc.
  rewrite pop_snoc, res_bind_ret, pop_snoc, res_bind_ret.
  rewrite (split1_at (lit ": ")) by done.
  unfold PyStr.unpack2. rewrite !res_bind_ret.
  by rewrite without_bom_spec.
Qed.

End DecoderBody.

Section DecoderClaims.
Context `{Env} {session : Type}.

Lemma parse_headers_app (seen rest : list str) (headers : PyDict.t hvalue) :
  parse_headers (seen ++ rest) headers =
  parse_headers seen headers ≫= parse_headers rest.
Proof.
  revert headers. induction seen as [|mline seen IH]; intros headers; [done|].
  simpl. rewrite add_header_item, !res_bind_ret. apply IH.
Qed.

(** C2, as the code has it: the decoder compares the keys of the header map
    as they are spelled.  For a block whose lines are cut and whose body is
    taken, the header loop returns a map in which every key holds the values
    of the lines with exactly that key, and the block gives a record if and
    only if that map has the key [Event] or the key [Response], spelled so;
    otherwise the decoder returns [None]. *)
Theorem from_line_keys_as_spelled
    (line : str) (mlines hl : list str) (content : str) :
  PyStr.split EOL line = Ret mlines ->
  extract_body mlines = Ret (content, hl) ->
  exists headers,
    parse_headers hl [] = Ret headers /\
    (forall k, PyDict.get k headers = collect (values_of k hl)) /\
    (from_line (session := session) line
       = Ret (Some (Message_init headers content)) <->
     PyDict.mem (lit "Event") headers = true \/
     PyDict.mem (lit "Response") headers = true) /\
    (from_line (session := session) line = Ret None <->
     PyDict.mem (lit "Event") headers = false /\
     PyDict.mem (lit "Response") headers = false).
Proof.
  intros Hs Hb.
  destruct (parse_headers_total hl) as (headers & Hp & Hget).
  exists headers. split; [done|]. split; [done|].
  rewrite (from_line_after_body line mlines hl content Hs Hb), Hp, res_bind_ret.
  destruct (PyDict.mem (lit "Event") headers),
    (PyDict.mem (lit "Response") headers); simpl; split; split;
    try done; try (intros [? ?]; done); try (intros [?|?]; done); auto.
Qed.

(** C3: for every block that is decoded, a header key that occurs once among
    the header lines maps to a string, not to a list of one; a key that
    occurs twice or more maps to the list of all its values in line order; a
    key that does not occur is absent.  The same holds of the map after any
    first part of the header lines, so the list is there from the second
    occurrence on. *)
Theorem header_string_or_list
    (line : str) (mlines hl : list str) (content k : str) :
  PyStr.split EOL line = Ret mlines ->
  extract_body mlines = Ret (content, hl) ->
  exists headers,
    parse_headers hl [] = Ret headers /\
    from_line (session := session) line =
      Ret (if PyDict.mem (lit "Event") headers
              || PyDict.mem (lit "Response") headers
           then Some (Message_init headers content) else None) /\
    (values_of k hl = [] -> PyDict.get k headers = None) /\
    (forall v, values_of k hl = [v] -> PyDict.get k headers = Some (Scalar v)) /\
    (2 <= length (values_of k hl) ->
     PyDict.get k headers = Some (Multi (values_of k hl))) /\
    (forall seen rest, hl = seen ++ rest ->
     exists before,
       parse_headers seen [] = Ret before /\
       parse_headers rest before = Ret headers /\
       PyDict.get k before = collect (values_of k seen)).
Proof.
  intros Hs Hb.
  destruct (parse_headers_total hl) as (headers & Hp & Hget).
  exists headers. split; [done|]. split.
  { rewrite (from_line_after_body line mlines hl content Hs Hb), Hp, res_bind_ret.
    by destruct (_ || _). }
  repeat split.
  - intros Hv. by rewrite Hget, Hv.
  - intros v Hv. by rewrite Hget, Hv.
  - intros Hlen. rewrite Hget.
    destruct (values_of k hl) as [|a [|b vs]]; simpl in *; [lia|lia|done].
  - intros seen rest ->.
    destruct (parse_headers_total seen) as (before & Hp1 & Hget1).
    exists before. split; [done|]. split; [|done].
    by rewrite parse_headers_app, Hp1, res_bind_ret in Hp.
Qed.

(** C4: a record that carries an [event] header is a success, whatever the
    header's value; a record without one is a success if and only if its
    [response] header is exactly [Success], [Follows] or [Goodbye], and is
    not a success for any other value. *)
Theorem success_event_or_response (self : @Message session) :
  (ci_contains (lit "event") (items self) = true -> success self = true) /\
  (ci_contains (lit "event") (items self) = false ->
   (success self = true <->
    ci_getattr (lit "response") (items self) = Scalar (lit "Success") \/
    ci_getattr (lit "response") (items self) = Scalar (lit "Follows") \/
    ci_getattr (lit "response") (items self) = Scalar (lit "Goodbye")) /\
   (success self = false <->
    ci_getattr (lit "response") (items self) <> Scalar (lit "Success") /\
    ci_getattr (lit "response") (items self) <> Scalar (lit "Follows") /\
    ci_getattr (lit "response") (items self) <> Scalar (lit "Goodbye"))).
Proof.
  unfold success. split; [by intros ->|]. intros ->.
  destruct (ci_getattr (lit "response") (items self)) as [s|l]; simpl.
  - assert (s ∈ success_responses <->
            Scalar s = Scalar (lit "Success") \/
            Scalar s = Scalar (lit "Follows") \/
            Scalar s = Scalar (lit "Goodbye")) as Hiff.
    { unfold success_responses. rewrite !elem_of_cons, elem_of_nil.
      split.
      - intros [->|[->|[->|[]]]]; auto.
      - intros [[= ->]|[[= ->]|[= ->]]]; auto. }
    case_bool_decide as Hin; rewrite Hiff in Hin;
      split; split; intros; try done; tauto.
  - split; split; try done. intros [?|[?|?]]; done.
Qed.

(** C5: for a block whose first line is exactly [Event: ReceivedSMS], whose
    last line is the one to discard and whose line before it reads
    [label: rest] at its first [": "], the decoder discards the last line,
    takes [rest] from the line before it, decodes it with
    [unquote_plus] and drops one leading U+FEFF; then, for as long as the body
    is empty and lines remain, it takes the last remaining line as the body.
    The lines left after that are the header lines of the record. *)
Theorem received_sms_body
    (line : str) (pre : list str) (label rest last : str) :
  PyStr.split EOL line = Ret (pre ++ [label ++ lit ": " ++ rest; last]) ->
  first_item (pre ++ [label ++ lit ": " ++ rest; last])
    = Ret (lit "Event: ReceivedSMS") ->
  PyStr.find (lit ": ") (label ++ lit ": " ++ rest) = Some (length label) ->
  exists (found : str) (hl : list str),
    extract_body (pre ++ [label ++ lit ": " ++ rest; last]) = Ret (found, hl) /\
    taken_until_nonempty (without_bom (unquote_plus rest)) pre found hl /\
    from_line (session := session) line =
      headers ← parse_headers hl [];
      Ret (if PyDict.mem (lit "Event") headers
              || PyDict.mem (lit "Response") headers
           then Some (Message_init headers found) else None).
Proof.
  intros Hs H0 Hf.
  pose proof (extract_body_sms pre label rest last H0 Hf) as Hb.
  pose proof (while_empty_pop_spec pre (without_bom (unquote_plus rest))) as Ht.
  destruct (while_empty_pop (without_bom (unquote_plus rest)) pre)
    as [found hl].
  exists found, hl. split; [done|]. split; [done|].
  rewrite (from_line_after_body line _ hl found Hs Hb).
  destruct (parse_headers hl []) as [headers|e]; [|done].
  rewrite !res_bind_ret. by destruct (_ || _).
Qed.

End DecoderClaims.

Section DecoderErrors.
Context `{Env} {session : Type}.

Lemma from_line_raises_of_body (line : str) (mlines : list str) (e : exn) :
  PyStr.split EOL line = Ret mlines ->
  extract_body mlines = Raise e ->
  from_line (session := session) line = Raise e.
Proof. intros Hs Hb. unfold from_line. by rewrite Hs, res_bind_ret, Hb. Qed.

Lemma extract_body_one_line :
  extract_body [lit "Event: ReceivedSMS"] = Raise IndexError.
Proof. reflexivity. Qed.

Lemma extract_body_no_separator (pre : list str) (bl last : str) :
  first_item (pre ++ [bl; last]) = Ret (lit "Event: ReceivedSMS") ->
  PyStr.contains (lit ": ") bl = false ->
  extract_body (pre ++ [bl; last]) = Raise ValueError.
Proof.
  intros H0 Hc. unfold extract_body. rewrite H0, res_bind_ret.
  change (startswith_any has_body (lit "Event: ReceivedSMS")) with true.
  rewrite bool_decide_eq_true_2 by done. cbv iota.
  replace (pre ++ [bl; last]) with ((pre ++ [bl]) ++ [last])
    by by rewrite <- app_assoc.
  rewrite pop_snoc, res_bind_ret, pop_snoc, res_bind_ret.
  unfold PyStr.contains in Hc. unfold PyStr.split1.
  by destruct (PyStr.find (lit ": ") bl).
Qed.

End DecoderErrors.

Section DecoderCases.
Context `{Env}.

Lemma find_Some_le (sep s : str) (i : nat) :
  PyStr.find sep s = Some i -> i <= length s.
Proof.
  revert i. induction s as [|c s IH]; intros i Hf; simpl in Hf.
  - destruct (PyStr.startswith sep []); [|done]. injection Hf as <-. done.
  - destruct (PyStr.startswith sep (c :: s)).
    + injection Hf as <-. lia.
    + destruct (PyStr.find sep s) as [j|]; [|done]. injection Hf as <-.
      simpl. specialize (IH j eq_refl). lia.
Qed.

Lemma two_last {A} (l : list A) :
  2 <= length l -> exists pre x y, l = pre ++ [x; y].
Proof.
  intros Hlen.
  destruct (decide (l = [])) as [->|Hne]; [simpl in Hlen; lia|].
  destruct (exists_last Hne) as (l1 & y & ->).
  rewrite length_app in Hlen. simpl in Hlen.
  destruct (decide (l1 = [])) as [->|Hne1]; [simpl in Hlen; lia|].
  destruct (exists_last Hne1) as (pre & x & ->).
  exists pre, x, y. by rewrite <- app_assoc.
Qed.

(** What the decoder does with the lines of a block that starts with the line
    [Event: ReceivedSMS], case by case: it takes a body exactly when there is
    a line before the last and that line holds [": "]. *)
Lemma extract_body_sms_cases (mlines : list str) :
  first_item mlines = Ret (lit "Event: ReceivedSMS") ->
  (mlines = [lit "Event: ReceivedSMS"] /\
   extract_body mlines = Raise IndexError) \/
  (exists pre bl last,
     mlines = pre ++ [bl; last] /\
     ((PyStr.contains (lit ": ") bl = false /\
       extract_body mlines = Raise ValueError) \/
      (exists label rest,
         bl = label ++ lit ": " ++ rest /\
         PyStr.find (lit ": ") bl = Some (length label) /\
         extract_body mlines =
           Ret (while_empty_pop (without_bom (unquote_plus rest)) pre)))).
Proof.
  intros H0.
  destruct mlines as [|l0 [|l1 rest]]; [done| |].
  - left. simpl in H0. injection H0 as ->. split; [done|].
    apply extract_body_one_line.
  - right.
    destruct (two_last (l0 :: l1 :: rest)) as (pre & bl & last & Heq);
      [simpl; lia|].
    exists pre, bl, last. split; [done|]. rewrite Heq in H0 |- *.
    destruct (PyStr.contains (lit ": ") bl) eqn:Hc.
    + right. unfold PyStr.contains in Hc.
      destruct (PyStr.find (lit ": ") bl) as [i|] eqn:Hf; [|done].
      pose proof (find_Some _ _ _ Hf) as Hbl.
      pose proof (find_Some_le _ _ _ Hf) as Hle.
      assert (length (take i bl) = i) as Hlen by (rewrite length_take; lia).
      remember (take i bl) as label eqn:Hlabel.
      remember (drop (i + length (lit ": ")) bl) as body eqn:Hbody.
      clear Hlabel Hbody. subst bl i.
      exists label, body. split; [done|]. split; [done|].
      by apply extract_body_sms.
    + left. split; [done|]. by apply extract_body_no_separator.
Qed.

End DecoderCases.

(** ** Properties of the session engine *)

Section EngineFacts.
Context `{Env} `{Matcher}.

Lemma add_trace_nil (w : World) : add_trace [] w = w.
Proof. destruct w. unfold add_trace. simpl. by rewrite app_nil_r. Qed.

Lemma add_trace_app (es1 es2 : list Effect) (w : World) :
  add_trace es2 (add_trace es1 w) = add_trace (es1 ++ es2) w.
Proof. unfold add_trace. simpl. by rewrite app_assoc. Qed.

(** C6: when the sink of the Login action resolves with a record (on a
    started session, whose loop is set), [login] returns without raising and
    the session is authenticated if and only if the record is a success; the
    on-login hook is handed to the loop on success and nothing is on failure;
    in both cases the keepalive timer that exists is cancelled and a new one
    is scheduled after the ping delay, in this order. *)
Theorem login_outcome (self : Manager) (w : World) (resp : @Message Manager) :
  loop self = Some tt ->
  exists self',
    login (Ret resp) self w =
      (Ret (success resp), self',
       {| trace :=
            trace w
            ++ (if success resp
                then [call_soon (cfg_on_login (config self)) [arg_self]]
                else [])
            ++ match pinger self with
               | Some old => [cancel old]
               | None => []
               end
            ++ [call_later (ping_delay self) bound_ping (next_handle w)];
          next_handle := S (next_handle w) |}) /\
    authenticated self' = success resp /\
    authenticated_future self' = None /\
    pinger self' = Some (next_handle w) /\
    patterns self' = patterns self /\
    callbacks self' = callbacks self /\
    awaiting_actions self' = awaiting_actions self /\
    _connected self' = _connected self.
Proof.
  intros Hloop.
  exists (set_pinger (Some (next_handle w))
            (set_authenticated (success resp)
               (set_authenticated_future None self))).
  split; [|done].
  unfold login, loop_call_soon, loop_call_later, the_loop, emit, update,
    get_self, lift, fresh_handle, add_trace, mbind, M_bind, mret, M_ret.
  destruct self as [c l cb pr pa au af aw [old|] co]; simpl in *;
    destruct (success resp); simpl; rewrite ?Hloop; simpl; rewrite ?Hloop;
    simpl; rewrite <- ?app_assoc, ?app_nil_r; reflexivity.
Qed.

(** C7: on a notification of connection loss (on a started session, whose
    loop is set), [connection_lost] returns without raising; the session is
    marked not connected; the on-disconnect hook is handed to the loop with
    the session and the error; the keepalive timer, if there is one, is
    cancelled and forgotten; and then one call of [connect] is scheduled
    after the reconnect timeout. *)
Theorem connection_lost_outcome
    (self : Manager) (w : World) (exc : option error) :
  loop self = Some tt ->
  exists self',
    connection_lost exc self w =
      (Ret tt, self',
       {| trace :=
            trace w
            ++ [call_soon (cfg_on_disconnect (config self))
                  [arg_self; arg_exc exc]]
            ++ match pinger self with
               | Some old => [cancel old]
               | None => []
               end
            ++ [call_later (reconnect_timeout self) bound_connect
                  (next_handle w)];
          next_handle := S (next_handle w) |}) /\
    _connected self' = false /\
    pinger self' = None /\
    authenticated self' = authenticated self /\
    patterns self' = patterns self /\
    callbacks self' = callbacks self /\
    awaiting_actions self' = awaiting_actions self.
Proof.
  intros Hloop.
  exists (set_pinger None (set_connected false self)).
  split; [|done].
  unfold connection_lost, loop_call_soon, loop_call_later, the_loop, emit,
    update, get_self, fresh_handle, add_trace, mbind, M_bind, mret, M_ret.
  destruct self as [c l cb pr pa au af aw [old|] co]; simpl in *;
    rewrite Hloop; simpl; rewrite <- ?app_assoc; reflexivity.
Qed.

End EngineFacts.

Section QueueFacts.
Context `{Env} `{Matcher}.

Lemma action_update_nil (action : Action) : action_update [] action = action.
Proof. by destruct action. Qed.

(** The loop of the drain, from a session whose protocol is set and whose
    queued actions all carry an [action] header. *)
Lemma send_awaiting_actions_from_run (queue : list Action) :
  forall (self : Manager) (w : World),
    protocol self = Some tt ->
    Forall (fun a => is_Some (action_type a)) queue ->
    awaiting_actions self = queue ->
    send_awaiting_actions_from queue self w =
      (Ret tt, set_awaiting_actions [] self,
       add_trace
         ((fun a => protocol_send a (as_list a))
            <$> filter (fun a => resent (forgetable_actions self) a) queue)
         w).
Proof.
  induction queue as [|action queue IH]; intros self w Hp Hall Hq.
  - simpl. rewrite add_trace_nil. destruct self; simpl in *; by subst.
  - apply Forall_cons in Hall as [[t Ht] Hall].
    unfold action_type in Ht.
    destruct (PyDict.get (lower (lit "action")) (fields action))
      as [name|] eqn:Hname; [|done].
    simpl in Ht. injection Ht as <-.
    assert (resent (forgetable_actions self) action
            = negb (bool_decide (lower name ∈ forgetable_actions self))
              && negb (done action)) as Hr.
    { unfold resent, is_forgetable, action_type. by rewrite Hname. }
    cbn [send_awaiting_actions_from].
    unfold mbind at 1, M_bind at 1, update at 1.
    unfold mbind at 1, M_bind at 1, lift at 1, action_getitem.
    rewrite Hname.
    unfold mbind at 1, M_bind at 1, get_self at 1.
    unfold mbind at 1, M_bind at 1.
    change (forgetable_actions (set_awaiting_actions queue self))
      with (forgetable_actions self).
    destruct (bool_decide (lower name ∈ forgetable_actions self)),
      (done action) eqn:Hdone; cbn [negb andb] in *;
      try (rewrite filter_cons_False by (rewrite Hr; exact (fun x => x));
           unfold mret, M_ret; cbv beta iota;
           rewrite (IH (set_awaiting_actions queue self) w Hp Hall eq_refl);
           reflexivity).
    rewrite filter_cons_True by (rewrite Hr; exact I).
    unfold send_action, protocol_send_, mbind at 1, M_bind at 1, get_self at 1.
    change (protocol (set_awaiting_actions queue self)) with (protocol self).
    rewrite Hp, action_update_nil. unfold emit at 1. cbv beta iota.
    rewrite (IH (set_awaiting_actions queue self) _ Hp Hall eq_refl).
    rewrite add_trace_app. reflexivity.
Qed.

(** C1, as the code has it: when the event [FullyBooted] is handled (the
    protocol is set, and every queued action carries an [action] header), the
    queue of awaiting actions is emptied from its left end; an action is sent
    again, with its own [as_list] flag and in the order of the queue, exactly
    when its type is not a forgetable one and its sink is not done; all other
    actions are dropped. *)
Theorem send_awaiting_actions_outcome (self : Manager) (w : World) :
  protocol self = Some tt ->
  Forall (fun a => is_Some (action_type a)) (awaiting_actions self) ->
  exists self',
    send_awaiting_actions self w =
      (Ret tt, self',
       add_trace
         ((fun a => protocol_send a (as_list a))
            <$> filter (fun a => resent (forgetable_actions self) a)
                  (awaiting_actions self))
         w) /\
    awaiting_actions self' = [] /\
    self' = set_awaiting_actions [] self.
Proof.
  intros Hp Hall. exists (set_awaiting_actions [] self).
  split; [|done].
  unfold send_awaiting_actions, mbind, M_bind, get_self.
  by apply send_awaiting_actions_from_run.
Qed.

End QueueFacts.

Section RouterFacts.
Context `{Env} `{Matcher}.

(** [register_event] with a callback, in closed form. *)
Lemma register_event_run (pattern : str) (cb : Callback)
    (self : Manager) (w : World) :
  register_event pattern (Some cb) self w =
    (Ret (registered cb),
     set_callbacks
       (<[pattern := callbacks_of self pattern ++ [cb]]> (callbacks self))
       match callbacks_of self pattern with
       | [] => set_patterns
                 (patterns self
                  ++ [(pattern, re_compile (fnmatch_translate pattern))]) self
       | _ :: _ => self
       end,
     match callbacks_of self pattern with
     | [] => add_trace [compile pattern] w
     | _ :: _ => w
     end).
Proof.
  unfold register_event, _register_event, callbacks_getitem, callbacks_of,
    emit, update, get_self, mbind, M_bind, mret, M_ret.
  destruct (callbacks self !! pattern) as [[|c cs]|] eqn:Hcb; simpl.
  - rewrite Hcb. reflexivity.
  - rewrite Hcb. reflexivity.
  - rewrite lookup_insert_eq. simpl. unfold set_callbacks. simpl.
    by rewrite insert_insert_eq.
Qed.

Lemma callbacks_of_insert (self : Manager) (pattern p : str)
    (cbs : list Callback) (self0 : Manager) :
  callbacks_of (set_callbacks (<[pattern := cbs]> (callbacks self)) self0) p =
  if decide (pattern = p) then cbs else callbacks_of self p.
Proof.
  unfold callbacks_of. simpl. rewrite lookup_insert.
  by destruct (decide (pattern = p)).
Qed.

(** Registering a callback keeps the subscriptions well formed. *)
Lemma register_event_keeps_registry (pattern : str) (cb : Callback)
    (self : Manager) (w : World) :
  registry_ok self ->
  registry_ok (register_event pattern (Some cb) self w).1.2.
Proof.
  intros [Hnodup Hdom]. rewrite register_event_run. cbn [fst snd].
  assert (forall self0 p, p <> pattern ->
            callbacks_of
              (set_callbacks
                 (<[pattern := callbacks_of self pattern ++ [cb]]>
                    (callbacks self)) self0) p = callbacks_of self p) as Hother.
  { intros self0 p Hne. rewrite callbacks_of_insert. by rewrite decide_False. }
  assert (forall self0,
            callbacks_of
              (set_callbacks
                 (<[pattern := callbacks_of self pattern ++ [cb]]>
                    (callbacks self)) self0) pattern
            = callbacks_of self pattern ++ [cb]) as Hsame.
  { intros self0. rewrite callbacks_of_insert. by rewrite decide_True. }
  destruct (callbacks_of self pattern) as [|c cs] eqn:Hknown.
  - assert (pattern ∉ (patterns self).*1) as Hnew.
    { rewrite Hdom, Hknown. by intros []. }
    split; simpl.
    + rewrite fmap_app. simpl. apply NoDup_app. split; [done|]. split.
      * intros p Hp ->%list_elem_of_singleton. done.
      * apply NoDup_singleton.
    + intros p. simpl. rewrite fmap_app, elem_of_app. simpl.
      rewrite list_elem_of_singleton.
      destruct (decide (p = pattern)) as [->|Hne].
      * rewrite Hsame. split; [by intros _|by right].
      * rewrite Hother by done. rewrite Hdom. split; [|by left].
        by intros [?|?].
  - split; [done|]. intros p. simpl.
    destruct (decide (p = pattern)) as [->|Hne].
    + rewrite Hsame. split; [intros _; by destruct cs|].
      intros _. rewrite Hdom, Hknown. done.
    + rewrite Hother by done. apply Hdom.
Qed.

(** C9: on a session whose subscriptions are well formed, registering a
    callback returns the callback unchanged and leaves the subscriptions well
    formed (one entry for each pattern).  For a pattern that has no entry yet,
    the matcher is compiled once and one entry is appended to the
    subscriptions, with the callback as its only callback.  For a pattern that
    has an entry, nothing is compiled and the subscriptions stay as they are;
    the callback is appended to the callbacks of the pattern.  The callbacks
    of the other patterns do not change. *)
Theorem register_event_outcome (pattern : str) (cb : Callback)
    (self : Manager) (w : World) :
  registry_ok self ->
  exists self' w',
    register_event pattern (Some cb) self w = (Ret (registered cb), self', w') /\
    registry_ok self' /\
    callbacks_of self' pattern = callbacks_of self pattern ++ [cb] /\
    (forall p, p <> pattern -> callbacks_of self' p = callbacks_of self p) /\
    (pattern ∉ (patterns self).*1 ->
     patterns self' =
       patterns self ++ [(pattern, re_compile (fnmatch_translate pattern))] /\
     w' = add_trace [compile pattern] w /\
     callbacks_of self' pattern = [cb]) /\
    (pattern ∈ (patterns self).*1 ->
     patterns self' = patterns self /\ w' = w).
Proof.
  intros Hok.
  pose proof (register_event_keeps_registry pattern cb self w Hok) as Hok'.
  destruct Hok as [Hnodup Hdom].
  rewrite register_event_run in Hok' |- *. cbn [fst snd] in Hok'.
  eexists _, _. split; [reflexivity|]. split; [exact Hok'|].
  split; [|split].
  - rewrite callbacks_of_insert. by rewrite decide_True.
  - intros p Hne. rewrite callbacks_of_insert. by rewrite decide_False.
  - destruct (callbacks_of self pattern) as [|c cs] eqn:Hknown.
    + split; [|intros Hin; apply Hdom in Hin; by rewrite Hknown in Hin].
      intros _. split; [done|]. split; [done|].
      rewrite callbacks_of_insert. by rewrite decide_True.
    + split; [|done].
      intros Hnot. exfalso. apply Hnot, Hdom. by rewrite Hknown.
Qed.

(** The subscriptions [__init__] leaves are well formed. *)
Lemma registry_ok_init (cfg : Config) (w : World) :
  registry_ok (Manager_init cfg w).1.2.
Proof.
  assert (forall p, callbacks_of (Manager_attributes cfg) p = []) as Hempty.
  { intros p. unfold callbacks_of. simpl. by rewrite lookup_empty. }
  unfold Manager_init, mbind, M_bind, mret, M_ret.
  rewrite register_event_run, Hempty. cbn [fst snd app]. split.
  - simpl. apply NoDup_singleton.
  - intros p. rewrite callbacks_of_insert.
    simpl. rewrite list_elem_of_singleton.
    destruct (decide (lit "FullyBooted" = p)) as [<-|Hne].
    + done.
    + rewrite Hempty. split; [by intros ->|done].
Qed.

End RouterFacts.

Section DispatchFacts.
Context `{Env} `{Matcher}.

Lemma call_each_run (cbs : list Callback) (event : @Message Manager)
    (self : Manager) (w : World) :
  call_each cbs event self w =
    (Ret tt, self,
     add_trace ((fun cb => call cb [arg_self; arg_event event]) <$> cbs) w).
Proof.
  revert w. induction cbs as [|cb cbs IH]; intros w.
  - simpl. by rewrite add_trace_nil.
  - cbn [call_each]. unfold mbind, M_bind, emit.
    rewrite IH, add_trace_app. reflexivity.
Qed.

(** The loop of [dispatch] over subscriptions that all have a list of
    callbacks, for an event whose type name is [name]. *)
Lemma dispatch_over_run (subscriptions : list (str * regex))
    (event : @Message Manager) (name : str) (self : Manager) :
  ci_getattr (lit "event") (items event) = Scalar name ->
  (forall p, p ∈ subscriptions.*1 -> is_Some (callbacks self !! p)) ->
  forall (matches : list str) (w : World),
    dispatch_over subscriptions event matches self w =
      (Ret (matches
            ++ (filter (fun s => re_match s.2 name) subscriptions).*1),
       self,
       add_trace
         (calls_for self event
            (filter (fun s => re_match s.2 name) subscriptions).*1) w).
Proof.
  intros Hname. induction subscriptions as [|[pattern regexp] subs IH];
    intros Hcbs matches w.
  - simpl. by rewrite app_nil_r, add_trace_nil.
  - cbn [dispatch_over]. unfold mbind at 1, M_bind at 1, match_event.
    rewrite Hname. unfold mret at 1, M_ret at 1.
    assert (forall p, p ∈ subs.*1 -> is_Some (callbacks self !! p)) as Hcbs'.
    { intros p Hp. apply Hcbs. rewrite fmap_cons. by apply list_elem_of_further. }
    destruct (re_match regexp name) eqn:Hm.
    + rewrite filter_cons_True by (simpl; rewrite Hm; exact I).
      destruct (Hcbs pattern) as [cbs Hp]; [rewrite fmap_cons; by left|].
      unfold mbind at 1, M_bind at 1.
      unfold mbind at 1, M_bind at 1, callbacks_getitem at 1,
        mbind at 1, M_bind at 1, get_self at 1.
      rewrite Hp. unfold mret at 1, M_ret at 1.
      unfold mbind at 1, M_bind at 1. rewrite call_each_run.
      unfold mret at 1, M_ret at 1.
      rewrite (IH Hcbs'), add_trace_app, <- app_assoc.
      rewrite fmap_cons. unfold calls_for at 2. simpl.
      unfold callbacks_of at 1. rewrite Hp. reflexivity.
    + rewrite filter_cons_False by (simpl; rewrite Hm; exact (fun x => x)).
      unfold mbind at 1, M_bind at 1, mret at 1, M_ret at 1.
      by rewrite (IH Hcbs').
Qed.

(** C8: on a session whose subscriptions are well formed, for an event whose
    type name is the string [name], [dispatch] first attaches the session to
    the event, then goes through the subscriptions in their order and tests
    [name] against each matcher; for every pattern that matches, and there is
    no pattern twice among them, it calls every callback of the pattern once,
    in the order of their registration, with the session and the event; it
    returns the matched patterns, and raises nothing. *)
Theorem dispatch_outcome
    (event : @Message Manager) (name : str) (self : Manager) (w : World) :
  registry_ok self ->
  ci_getattr (lit "event") (items event) = Scalar name ->
  dispatch event self w =
    (Ret (matching self name), self,
     add_trace
       (calls_for self {| items := items event; manager := Some self |}
          (matching self name)) w) /\
  NoDup (matching self name) /\
  (forall p, p ∈ matching self name <->
     exists regexp, (p, regexp) ∈ patterns self /\ re_match regexp name = true).
Proof.
  intros [Hnodup Hdom] Hname. split; [|split].
  - unfold dispatch, mbind, M_bind, get_self.
    rewrite (dispatch_over_run _ _ name); [done|done|].
    intros p Hp. apply Hdom in Hp. unfold callbacks_of in Hp.
    destruct (callbacks self !! p); [by eexists|done].
  - unfold matching. eapply sublist_NoDup; [exact Hnodup|].
    apply (fmap_sublist fst _ _ (sublist_filter _ _)).
  - intros p. unfold matching. rewrite list_elem_of_fmap. split.
    + intros ([p' regexp] & -> & [Hm Hin]%list_elem_of_filter).
      exists regexp. split; [done|]. simpl in Hm. by apply Is_true_true.
    + intros (regexp & Hin & Hm). exists (p, regexp). split; [done|].
      apply list_elem_of_filter. split; [|done]. simpl. by rewrite Hm.
Qed.

End DispatchFacts.

(** ** More about the decoder *)

Section DecoderMore.
Context `{Env} {session : Type}.

Lemma split_first_item (sep s : str) (mlines : list str) :
  PyStr.split sep s = Ret mlines -> exists l0, first_item mlines = Ret l0.
Proof.
  destruct sep as [|c sep]; [done|]. simpl. intros [= <-].
  pose proof (split_upto_nonempty (length s) (c :: sep) s) as Hne.
  destruct (PyStr.split_upto (length s) (c :: sep) s) as [|l0 ls]; [done|].
  by exists l0.
Qed.

Lemma pop_cons {A} (x : A) (l : list A) :
  exists y l', pop (x :: l) = Ret (y, l') /\ x :: l = l' ++ [y].
Proof.
  destruct (exists_last (l := x :: l)) as (l' & y & Heq); [done|].
  exists y, l'. rewrite Heq. split; [apply pop_snoc|done].
Qed.

Lemma replicate_snoc {A} (n : nat) (x : A) :
  replicate n x ++ [x] = replicate (S n) x.
Proof. induction n as [|n IH]; [done|]. simpl. by rewrite IH. Qed.

(** The body of a block whose first line has one of the prefixes of
    [has_body] and is not the line [Event: ReceivedSMS]: the last line that
    is not empty. *)
Lemma extract_body_plain (mlines : list str) (l0 : str) :
  first_item mlines = Ret l0 ->
  startswith_any has_body l0 = true ->
  l0 <> lit "Event: ReceivedSMS" ->
  exists (body : str) (hl : list str) (n : nat),
    extract_body mlines = Ret (body, hl) /\
    body <> [] /\
    mlines = hl ++ body :: replicate n [].
Proof.
  intros H0 Hpre Hsms.
  destruct mlines as [|x rest]; [done|]. simpl in H0. injection H0 as ->.
  assert (l0 <> []) as Hl0 by (intros ->; done).
  unfold extract_body. cbn [first_item]. rewrite res_bind_ret, Hpre.
  rewrite bool_decide_eq_false_2 by done.
  destruct (pop_cons l0 rest) as (y & l' & Hpop & Heq).
  rewrite Hpop, res_bind_ret, Heq.
  pose proof (while_empty_pop_spec l' y) as Hspec.
  destruct (while_empty_pop y l') as [body hl]. simpl in Hspec.
  destruct Hspec as [(Hy & -> & ->)|(-> & n & [(Hb & ->)|(-> & -> & ->)])].
  - exists y, l', 0. done.
  - exists body, hl, (S n). split; [done|]. split; [done|].
    by rewrite <- replicate_snoc, <- app_assoc.
  - exfalso. rewrite replicate_snoc in Heq. by injection Heq.
Qed.

(** The body is not taken when the first line has none of the prefixes. *)
Lemma extract_body_none (mlines : list str) (l0 : str) :
  first_item mlines = Ret l0 ->
  startswith_any has_body l0 = false ->
  extract_body mlines = Ret ([], mlines).
Proof. intros H0 Hpre. unfold extract_body. by rewrite H0, res_bind_ret, Hpre. Qed.

Lemma has_body_sms : startswith_any has_body (lit "Event: ReceivedSMS") = true.
Proof. reflexivity. Qed.

(** X1: the decoder raises on blocks that start with the line
    [Event: ReceivedSMS] only (and on every block when the end-of-line marker
    is empty): if [from_line] raises, either the marker is empty and the error
    is [ValueError], or the first line is exactly [Event: ReceivedSMS] and
    either it is the only line ([IndexError]) or the line before the last
    holds no [": "] ([ValueError]). *)
Theorem from_line_raises_only_on_sms (line : str) (e : exn) :
  from_line (session := session) line = Raise e ->
  (EOL = [] /\ e = ValueError) \/
  (exists mlines,
     PyStr.split EOL line = Ret mlines /\
     first_item mlines = Ret (lit "Event: ReceivedSMS") /\
     ((mlines = [lit "Event: ReceivedSMS"] /\ e = IndexError) \/
      (exists pre bl last,
         mlines = pre ++ [bl; last] /\
         PyStr.contains (lit ": ") bl = false /\
         e = ValueError))).
Proof.
  intros Hraise. unfold from_line in Hraise.
  destruct (PyStr.split EOL line) as [mlines|e'] eqn:Hs.
  - right. exists mlines. split; [done|].
    destruct (split_first_item _ _ _ Hs) as (l0 & H0).
    rewrite res_bind_ret in Hraise.
    assert (forall content hl,
              extract_body mlines = Ret (content, hl) -> False) as Hno.
    { intros content hl Hb. rewrite Hb, res_bind_ret in Hraise.
      destruct (parse_headers_total hl) as (headers & Hp & _).
      rewrite Hp, res_bind_ret in Hraise. by destruct (_ || _). }
    destruct (decide (l0 = lit "Event: ReceivedSMS")) as [->|Hsms].
    + split; [done|].
      destruct (extract_body_sms_cases mlines H0)
        as [[-> Hb]|(pre & bl & last & -> & [[Hc Hb]|(label & rest & _ & _ & Hb)])].
      * left. split; [done|]. rewrite Hb in Hraise. by injection Hraise.
      * right. exists pre, bl, last. split; [done|]. split; [done|].
        rewrite Hb in Hraise. by injection Hraise.
      * exfalso. destruct (while_empty_pop _ pre) as [c hl].
        by apply (Hno c hl).
    + exfalso. destruct (startswith_any has_body l0) eqn:Hpre.
      * destruct (extract_body_plain mlines l0 H0 Hpre Hsms)
          as (body & hl & n & Hb & _). by apply (Hno body hl).
      * by apply (Hno [] mlines), (extract_body_none mlines l0).
  - left. unfold PyStr.split in Hs. destruct EOL; [|done].
    injection Hs as <-. split; [done|]. by injection Hraise.
Qed.

(** X2: for a block whose first line starts with [Response: Follows],
    [Response: Fail] or [Event: ReceivedSMS] without being the line
    [Event: ReceivedSMS] itself, the decoder does not raise; the body is the
    last line that is not empty, it is never empty, and the header lines are
    the lines before it. *)
Theorem response_body_is_last_nonempty_line
    (line : str) (mlines : list str) (l0 : str) :
  PyStr.split EOL line = Ret mlines ->
  first_item mlines = Ret l0 ->
  startswith_any has_body l0 = true ->
  l0 <> lit "Event: ReceivedSMS" ->
  exists (body : str) (hl : list str) (n : nat) (headers : PyDict.t hvalue),
    mlines = hl ++ body :: replicate n [] /\
    body <> [] /\
    parse_headers hl [] = Ret headers /\
    from_line (session := session) line =
      Ret (if PyDict.mem (lit "Event") headers
              || PyDict.mem (lit "Response") headers
           then Some (Message_init headers body) else None).
Proof.
  intros Hs H0 Hpre Hsms.
  destruct (extract_body_plain mlines l0 H0 Hpre Hsms)
    as (body & hl & n & Hb & Hne & Heq).
  destruct (parse_headers_total hl) as (headers & Hp & _).
  exists body, hl, n, headers. split; [done|]. split; [done|]. split; [done|].
  rewrite (from_line_after_body line mlines hl body Hs Hb), Hp, res_bind_ret.
  by destruct (_ || _).
Qed.

(** X3: a block that has a body and nothing before it gives no record: when
    the lines are one line with a prefix of [has_body] (other than the line
    [Event: ReceivedSMS]) followed by empty lines only, that line is taken as
    the body, no header is left, and the decoder returns [None]. *)
Theorem body_only_block_is_no_message (line l0 : str) (n : nat) :
  PyStr.split EOL line = Ret (l0 :: replicate n []) ->
  startswith_any has_body l0 = true ->
  l0 <> lit "Event: ReceivedSMS" ->
  extract_body (l0 :: replicate n []) = Ret (l0, []) /\
  from_line (session := session) line = Ret None.
Proof.
  intros Hs Hpre Hsms.
  destruct (extract_body_plain (l0 :: replicate n []) l0 eq_refl Hpre Hsms)
    as (body & hl & m & Hb & Hne & Heq).
  assert (hl = [] /\ body = l0) as [-> ->].
  { destruct hl as [|h hl]; simpl in Heq.
    - by injection Heq as ->.
    - exfalso. injection Heq as -> Heq.
      assert (body ∈ replicate n ([] : str)) as Hin.
      { rewrite Heq. apply elem_of_app. right. by left. }
      apply elem_of_replicate in Hin as [-> _]. done. }
  split; [done|].
  by rewrite (from_line_after_body line _ [] l0 Hs Hb).
Qed.

End DecoderMore.

Section HeaderRoundTrip.
Context `{Env} {session : Type}.

Lemma find_after_key (k v : str) :
  58%N ∉ k -> PyStr.find (lit ": ") (k ++ lit ": " ++ v) = Some (length k).
Proof.
  induction k as [|c k IH]; intros Hk; [done|].
  apply not_elem_of_cons in Hk as [Hc Hk].
  cbn [app PyStr.find].
  replace (PyStr.startswith (lit ": ") (c :: k ++ lit ": " ++ v)) with false.
  - by rewrite (IH Hk).
  - symmetry. change (lit ": ") with [58%N; 32%N]. cbn [PyStr.startswith].
    by rewrite bool_decide_eq_false_2.
Qed.

Lemma header_item_line (kv : str * str) :
  58%N ∉ kv.1 -> lower kv.1 ∉ quoted_keys ->
  header_item (header_line kv) = Some kv.
Proof.
  intros Hk Hq. destruct kv as [k v]. unfold header_item, header_line.
  cbn [fst snd] in *. rewrite (find_after_key k v Hk).
  rewrite take_app_length, bool_decide_eq_false_2 by done.
  change 2 with (length (lit ": ")).
  by rewrite app_assoc, <- length_app, drop_app_length.
Qed.

Lemma dict_get_fresh {V W} (f : V -> W) (k : str) (kvs : list (str * V)) :
  k ∉ kvs.*1 -> PyDict.get k ((fun kv => (kv.1, f kv.2)) <$> kvs) = None.
Proof.
  induction kvs as [|[k' v] kvs IH]; intros Hk; [done|].
  rewrite fmap_cons in Hk. apply not_elem_of_cons in Hk as [Hne Hk].
  simpl. rewrite decide_False by done. by apply IH.
Qed.

Lemma dict_set_fresh {V} (k : str) (v : V) (d : PyDict.t V) :
  PyDict.get k d = None -> PyDict.set k v d = d ++ [(k, v)].
Proof.
  induction d as [|[k' v'] d IH]; intros Hg; [done|]. simpl in *.
  destruct (decide (k' = k)); [done|]. by rewrite IH.
Qed.

(** X4: writing headers down and decoding them gives them back.  For keys
    that are pairwise different, hold no colon and are not quoted keys, the
    header loop on the lines [key: value] returns the map with exactly these
    keys, in the order of the lines, each with its value as a string, also
    when the value holds [": "] itself. *)
Theorem parse_headers_of_lines (kvs : list (str * str)) :
  NoDup kvs.*1 ->
  Forall (fun kv => (58%N ∉ kv.1) /\ (lower kv.1 ∉ quoted_keys)) kvs ->
  parse_headers (header_line <$> kvs) []
    = Ret ((fun kv => (kv.1, Scalar kv.2)) <$> kvs).
Proof.
  induction kvs as [|kv kvs IH] using rev_ind; intros Hnd Hall; [done|].
  rewrite fmap_app in Hnd. apply NoDup_app in Hnd as (Hnd & Hfresh & _).
  apply Forall_app in Hall as [Hall Hkv].
  apply Forall_singleton in Hkv as [Hcolon Hquoted].
  rewrite !fmap_app, parse_headers_app, (IH Hnd Hall), res_bind_ret.
  cbn [fmap list_fmap parse_headers].
  rewrite add_header_item, res_bind_ret, header_item_line by done.
  destruct kv as [k v]. simpl in *.
  assert (k ∉ kvs.*1) as Hk.
  { intros Hin. apply (Hfresh k Hin). by left. }
  rewrite (dict_get_fresh Scalar k kvs Hk).
  by rewrite dict_set_fresh by apply (dict_get_fresh Scalar k kvs Hk).
Qed.

End HeaderRoundTrip.

Section RecordFacts.
Context `{Env} {session : Type}.




(** The body given to the constructor is what [self.content] reads, whatever
    the headers. *)
Lemma content_of_init (headers : PyDict.t hvalue) (content : str) :
  content_of (Message_init (session := session) headers content)
    = Scalar content.
Proof.
  unfold content_of, Message_init, ci_getattr, ci_get, ci_init. simpl.
  rewrite foldl_app. simpl. unfold ci_setitem. by rewrite dict_get_set_eq.
Qed.


(** X7: the lines of the body.  For every record made by the constructor,
    [iter_lines] returns, with at least one line, and the lines joined by
    line feeds are the body. *)
Theorem iter_lines_join (headers : PyDict.t hvalue) (content : str) :
  exists ls,
    iter_lines (Message_init (session := session) headers content) = Ret ls /\
    ls <> [] /\
    PyStr.join LF ls = content.
Proof.
  unfold iter_lines. rewrite content_of_init. eexists. split; [reflexivity|].
  split; [apply split_upto_nonempty|apply join_split_upto].
Qed.

End RecordFacts.

Section GetDict.
Context `{Env} {session : Type}.

(** The loop of [getdict], started on the mapping of the items [seen]. *)
Lemma getdict_items_spec (values seen : list str) (result : CaseInsensitiveDict) :
  (forall name, PyDict.get (lower name) result
                = Scalar <$> last_item_value name seen) ->
  (Forall (fun item => PyStr.contains (lit "=") item = true) values ->
   exists d,
     getdict_items values result = Ret d /\
     forall name, PyDict.get (lower name) d
                  = Scalar <$> last_item_value name (seen ++ values)) /\
  (Exists (fun item => PyStr.contains (lit "=") item = false) values ->
   getdict_items values result = Raise ValueError).
Proof.
  revert seen result.
  induction values as [|item values IH]; intros seen result Hinv.
  - split.
    + intros _. exists result. by rewrite app_nil_r.
    + intros Hex. by apply Exists_nil in Hex.
  - cbn [getdict_items]. unfold PyStr.split1, PyStr.contains.
    destruct (PyStr.find (lit "=") item) as [i|] eqn:Hf.
    + cbn [PyStr.unpack2]. rewrite res_bind_ret.
      change (length (lit "=")) with 1.
      destruct (IH (seen ++ [item])
                  (ci_setitem (take i item) (Scalar (drop (i + 1) item)) result))
        as [Hok Hbad].
      { intros name. unfold last_item_value. rewrite omap_app. simpl.
        unfold dict_item. rewrite Hf. unfold ci_setitem.
        destruct (decide (lower (take i item) = lower name)) as [Heq|Hne].
        - rewrite Heq, dict_get_set_eq. simpl. by rewrite last_snoc.
        - rewrite dict_get_set_ne by done. simpl. rewrite app_nil_r.
          apply Hinv. }
      split.
      * intros Hall. apply Forall_cons in Hall as [_ Hall].
        destruct (Hok Hall) as (d & Hd & Hget). exists d. split; [done|].
        intros name. rewrite Hget. by rewrite <- app_assoc.
      * intros Hex. apply Exists_cons in Hex as [Hitem|Hex]; [|by apply Hbad].
        unfold PyStr.contains in Hitem. by rewrite Hf in Hitem.
    + split.
      * intros Hall. apply Forall_cons in Hall as [Hitem _].
        unfold PyStr.contains in Hitem. by rewrite Hf in Hitem.
      * intros _. done.
Qed.

(** X6: [getdict] on a header.  It raises [TypeError] when the header is
    absent or a single string; on a list, it raises [ValueError] when an item
    holds no [=], and otherwise returns a mapping in which every name reads
    the value, the text after the first [=], of the last item whose key is
    that name up to letter case (and is absent when there is no such
    item). *)
Theorem getdict_outcome (key : str) (self : @Message session) :
  (PyDict.get (lower key) (items self) = None -> getdict key self = Raise TypeError) /\
  (forall v, PyDict.get (lower key) (items self) = Some (Scalar v) ->
     getdict key self = Raise TypeError) /\
  (forall values, PyDict.get (lower key) (items self) = Some (Multi values) ->
     (Exists (fun item => PyStr.contains (lit "=") item = false) values ->
      getdict key self = Raise ValueError) /\
     (Forall (fun item => PyStr.contains (lit "=") item = true) values ->
      exists d,
        getdict key self = Ret d /\
        forall name, PyDict.get (lower name) d
                     = Scalar <$> last_item_value name values)).
Proof.
  unfold getdict. split; [by intros ->|]. split; [by intros v ->|].
  intros values ->.
  destruct (getdict_items_spec values [] []) as [Hok Hbad]; [done|].
  split; [exact Hbad|exact Hok].
Qed.

End GetDict.

(** ** More about the session engine *)

Section Frames.
Context `{Env} `{Matcher}.
#[local] Existing Instance M_ret.
#[local] Existing Instance M_bind.


Lemma keeps_ret {A} (a : A) : keeps_subscriptions (mret a).
Proof. intros self w. done. Qed.


Lemma keeps_get_self : keeps_subscriptions get_self.
Proof. intros self w. done. Qed.

Lemma keeps_raise {A} (e : exn) : keeps_subscriptions (raise (A := A) e).
Proof. intros self w. done. Qed.

Lemma keeps_lift {A} (r : res A) : keeps_subscriptions (lift r).
Proof. intros self w. done. Qed.

Lemma keeps_fresh_handle : keeps_subscriptions fresh_handle.
Proof. intros self w. done. Qed.

Lemma keeps_update (f : Manager -> Manager) :
  keeps_registry_fields f -> keeps_subscriptions (update f).
Proof.
  intros Hf self w. destruct (Hf self) as [Hp Hc]. simpl.
  split; [done|]. split; [|done]. intros p. unfold callbacks_of. by rewrite Hc.
Qed.


Lemma keeps_callbacks_getitem (pattern : str) :
  keeps_subscriptions (callbacks_getitem pattern).
Proof.
  intros self w. unfold callbacks_getitem, mbind, M_bind, get_self.
  destruct (callbacks self !! pattern) as [l|] eqn:Hl; [done|].
  simpl. split; [done|]. split; [|done].
  intros p. unfold callbacks_of. simpl. rewrite lookup_insert.
  destruct (decide (pattern = p)) as [<-|]; [|done]. by rewrite Hl.
Qed.

Lemma fields_set_authenticated v : keeps_registry_fields (set_authenticated v).
Proof. done. Qed.
Lemma fields_set_authenticated_future v :
  keeps_registry_fields (set_authenticated_future v).
Proof. done. Qed.
Lemma fields_set_awaiting_actions v :
  keeps_registry_fields (set_awaiting_actions v).
Proof. done. Qed.
Lemma fields_set_pinger v : keeps_registry_fields (set_pinger v).
Proof. done. Qed.
Lemma fields_set_connected v : keeps_registry_fields (set_connected v).
Proof. done. Qed.

Create HintDb frames discriminated.
#[local] Hint Resolve keeps_ret keeps_get_self keeps_raise keeps_lift
  keeps_fresh_handle keeps_update keeps_callbacks_getitem
  fields_set_authenticated fields_set_authenticated_future
  fields_set_awaiting_actions fields_set_pinger fields_set_connected : frames.













End Frames.

Section Built.
Context `{Env} `{Matcher}.






End Built.

Section MoreDispatch.
Context `{Env} `{Matcher}.

Lemma calls_for_app (self : Manager) (event : @Message Manager)
    (ms1 ms2 : list str) :
  calls_for self event (ms1 ++ ms2)
    = calls_for self event ms1 ++ calls_for self event ms2.
Proof. unfold calls_for. apply flat_map_app. Qed.

Lemma calls_for_ext (self self' : Manager) (event : @Message Manager)
    (ms : list str) :
  (forall p, p ∈ ms -> callbacks_of self' p = callbacks_of self p) ->
  calls_for self' event ms = calls_for self event ms.
Proof.
  induction ms as [|p ms IH]; intros Hext; [done|].
  unfold calls_for in *. simpl. rewrite Hext by (by left).
  f_equal. apply IH. intros q Hq. apply Hext. by right.
Qed.

Lemma matching_elem (self : Manager) (name p : str) :
  p ∈ matching self name -> p ∈ (patterns self).*1.
Proof.
  unfold matching. rewrite !list_elem_of_fmap.
  intros (s & -> & [_ Hin]%list_elem_of_filter). by exists s.
Qed.

(** X11: an event whose [Event] header is a list is not dispatched.  On a
    session with a subscription, [dispatch] raises [TypeError] at the first
    matcher: no callback is called and the session is as before; on a session
    without subscriptions it returns no match. *)
Theorem dispatch_list_valued_event
    (event : @Message Manager) (vs : list str) (self : Manager) (w : World) :
  ci_getattr (lit "event") (items event) = Multi vs ->
  (patterns self <> [] -> dispatch event self w = (Raise TypeError, self, w)) /\
  (patterns self = [] -> dispatch event self w = (Ret [], self, w)).
Proof.
  intros Hname. unfold dispatch, mbind, M_bind, get_self.
  destruct (patterns self) as [|[pattern regexp] subs]; split; try done.
  intros _. cbn [dispatch_over]. unfold mbind, M_bind, match_event.
  cbn [items]. by rewrite Hname.
Qed.

(** X12: a registration and the dispatch after it.  On a session whose
    subscriptions are well formed, after [register_event pattern callback]
    the dispatch of an event named [name] matches the patterns it matched
    before, in the same order, and then [pattern] if it is new and its
    matcher accepts [name]; the callbacks of every pattern are those of
    before, with [callback] appended for [pattern].  So a callback registered
    under a new pattern is called after all the callbacks that were there. *)
Theorem dispatch_after_register_event
    (pattern : str) (cb : Callback) (event : @Message Manager) (name : str)
    (self self' : Manager) (w w' w1 : World) (r : res registration) :
  registry_ok self ->
  ci_getattr (lit "event") (items event) = Scalar name ->
  register_event pattern (Some cb) self w = (r, self', w') ->
  matching self' name =
    matching self name
    ++ (if decide (pattern ∈ (patterns self).*1) then []
        else if re_match (re_compile (fnmatch_translate pattern)) name
             then [pattern] else []) /\
  (forall q, callbacks_of self' q =
             callbacks_of self q ++ (if decide (q = pattern) then [cb] else [])) /\
  dispatch event self' w1 =
    (Ret (matching self' name), self',
     add_trace
       (calls_for self' {| items := items event; manager := Some self' |}
          (matching self' name)) w1) /\
  (pattern ∉ (patterns self).*1 ->
   re_match (re_compile (fnmatch_translate pattern)) name = true ->
   calls_for self' {| items := items event; manager := Some self' |}
     (matching self' name) =
   calls_for self {| items := items event; manager := Some self' |}
     (matching self name)
   ++ [call cb [arg_self;
                arg_event {| items := items event; manager := Some self' |}]]).
Proof.
  intros Hok Hname Hreg.
  pose proof (register_event_keeps_registry pattern cb self w Hok) as Hok'.
  rewrite Hreg in Hok'. cbn [fst snd] in Hok'.
  rewrite register_event_run in Hreg. injection Hreg as _ <- _.
  destruct Hok as [Hnd Hdom].
  assert (forall q self0,
            callbacks_of
              (set_callbacks
                 (<[pattern := callbacks_of self pattern ++ [cb]]>
                    (callbacks self)) self0) q =
            callbacks_of self q ++ (if decide (q = pattern) then [cb] else []))
    as Hcbs.
  { intros q self0. rewrite callbacks_of_insert.
    destruct (decide (pattern = q)) as [<-|Hne].
    - by rewrite decide_True.
    - rewrite decide_False by done. by rewrite app_nil_r. }
  assert (matching
            (set_callbacks
               (<[pattern := callbacks_of self pattern ++ [cb]]>
                  (callbacks self))
               match callbacks_of self pattern with
               | [] => set_patterns
                         (patterns self ++
                          [(pattern, re_compile (fnmatch_translate pattern))])
                         self
               | _ :: _ => self
               end) name =
          matching self name
          ++ (if decide (pattern ∈ (patterns self).*1) then []
              else if re_match (re_compile (fnmatch_translate pattern)) name
                   then [pattern] else [])) as Hmatching.
  { destruct (callbacks_of self pattern) as [|c cs] eqn:Hknown.
    - rewrite decide_False by (rewrite Hdom, Hknown; by intros []).
      unfold matching. simpl. rewrite filter_app, fmap_app. f_equal.
      rewrite filter_cons, filter_nil. simpl.
      case_decide as Hd; destruct (re_match _ name); try done; by destruct Hd.
    - rewrite decide_True by (rewrite Hdom, Hknown; done).
      by rewrite app_nil_r. }
  split; [exact Hmatching|]. split; [intros q; apply Hcbs|]. split.
  - unfold dispatch, mbind, M_bind, get_self.
    rewrite (dispatch_over_run _ _ name); [done|done|].
    intros p Hp. apply Hok' in Hp. unfold callbacks_of in Hp.
    destruct (callbacks _ !! p); [by eexists|done].
  - intros Hnew Hm. rewrite Hmatching, decide_False, Hm by done.
    rewrite calls_for_app. f_equal.
    + apply calls_for_ext. intros p Hp. rewrite Hcbs.
      rewrite decide_False; [by rewrite app_nil_r|].
      intros ->. by apply Hnew, (matching_elem self name).
    + unfold calls_for. simpl. rewrite Hcbs, decide_True by done.
      assert (callbacks_of self pattern = []) as ->.
      { destruct (callbacks_of self pattern) eqn:Hc; [done|].
        exfalso. apply Hnew, Hdom. by rewrite Hc. }
      done.
Qed.

End MoreDispatch.

Section MoreQueue.
Context `{Env} `{Matcher}.
#[local] Existing Instance M_ret.
#[local] Existing Instance M_bind.

(** The loop of the drain along actions that are dropped or can be sent. *)
Lemma send_awaiting_actions_from_app (q1 q : list Action) :
  forall (self : Manager) (w : World),
    Forall (fun a => is_Some (action_type a)) q1 ->
    (protocol self = Some tt \/
     Forall (fun a => resent (forgetable_actions self) a = false) q1) ->
    send_awaiting_actions_from (q1 ++ q) self w =
    send_awaiting_actions_from q
      match q1 with [] => self | _ :: _ => set_awaiting_actions q self end
      (add_trace
         ((fun a => protocol_send a (as_list a))
            <$> filter (fun a => resent (forgetable_actions self) a) q1) w).
Proof.
  induction q1 as [|action q1 IH]; intros self w Hall Hcan.
  - simpl. by rewrite add_trace_nil.
  - apply Forall_cons in Hall as [[t Ht] Hall].
    unfold action_type in Ht.
    destruct (PyDict.get (lower (lit "action")) (fields action))
      as [name|] eqn:Hname; [|done].
    assert (resent (forgetable_actions self) action
            = negb (bool_decide (lower name ∈ forgetable_actions self))
              && negb (done action)) as Hr.
    { unfold resent, is_forgetable, action_type. by rewrite Hname. }
    assert (protocol (set_awaiting_actions (q1 ++ q) self) = Some tt \/
            Forall (fun a => resent (forgetable_actions
                                       (set_awaiting_actions (q1 ++ q) self)) a
                             = false) q1) as Hcan'.
    { destruct Hcan as [Hp|Hno]; [by left|right].
      by apply Forall_cons in Hno as [_ Hno]. }
    cbn [app send_awaiting_actions_from].
    unfold mbind at 1, M_bind at 1, update at 1.
    unfold mbind at 1, M_bind at 1, lift at 1, action_getitem.
    rewrite Hname.
    unfold mbind at 1, M_bind at 1, get_self at 1.
    unfold mbind at 1, M_bind at 1.
    change (forgetable_actions (set_awaiting_actions (q1 ++ q) self))
      with (forgetable_actions self).
    destruct (resent (forgetable_actions self) action) eqn:Hres.
    + rewrite filter_cons_True by (rewrite Hres; exact I).
      destruct Hcan as [Hp|Hno];
        [|apply Forall_cons in Hno as [Hno _]; congruence].
      symmetry in Hr. apply andb_true_iff in Hr as [Hf Hd]. rewrite Hf, Hd.
      unfold send_action, protocol_send_, mbind at 1, M_bind at 1,
        get_self at 1.
      change (protocol (set_awaiting_actions (q1 ++ q) self))
        with (protocol self).
      rewrite Hp, action_update_nil. unfold emit at 1. cbv beta iota.
      rewrite (IH _ _ Hall Hcan'), add_trace_app.
      cbn [fmap list_fmap app]. by destruct q1.
    + rewrite filter_cons_False by (rewrite Hres; exact (fun x => x)).
      assert ((if negb (bool_decide (lower name ∈ forgetable_actions self))
               then if negb (done action)
                    then send_action action (as_list action) []
                    else mret tt
               else mret tt) = mret tt) as ->.
      { symmetry in Hr. apply andb_false_iff in Hr as [->| ->]; [done|].
        by destruct (negb _). }
      unfold mret at 1, M_ret at 1. cbv beta iota.
      rewrite (IH _ _ Hall Hcan'). by destruct q1.
Qed.

(** X9: a queued action without an [action] header stops the drain.  With
    the protocol set and actions [q1] that all carry the header before it:
    the actions of [q1] are handled as usual, then [KeyError] is raised; the
    action without the header has left the queue, and the actions [q2] after
    it stay queued. *)
Theorem send_awaiting_actions_key_error
    (self : Manager) (w : World) (q1 q2 : list Action) (bad : Action) :
  protocol self = Some tt ->
  awaiting_actions self = q1 ++ bad :: q2 ->
  Forall (fun a => is_Some (action_type a)) q1 ->
  action_type bad = None ->
  send_awaiting_actions self w =
    (Raise KeyError, set_awaiting_actions q2 self,
     add_trace
       ((fun a => protocol_send a (as_list a))
          <$> filter (fun a => resent (forgetable_actions self) a) q1) w).
Proof.
  intros Hp Hq Hall Hbad.
  unfold send_awaiting_actions, mbind, M_bind, get_self. rewrite Hq.
  rewrite send_awaiting_actions_from_app by auto.
  cbn [send_awaiting_actions_from].
  unfold mbind at 1, M_bind at 1, update at 1.
  unfold mbind at 1, M_bind at 1, lift at 1, action_getitem.
  unfold action_type in Hbad.
  destruct (PyDict.get (lower (lit "action")) (fields bad)); [done|].
  by destruct q1.
Qed.

(** X10: before a protocol is set, the drain loses the first action it would
    send.  With [self.protocol] still [None], actions [q1] that are all
    dropped (forgetable or done), and then an action that is to be sent
    again: [AttributeError] is raised, nothing is sent, that action has left
    the queue with those before it, and the actions [q2] after it stay
    queued. *)
Theorem send_awaiting_actions_without_protocol
    (self : Manager) (w : World) (q1 q2 : list Action) (action : Action) :
  protocol self = None ->
  awaiting_actions self = q1 ++ action :: q2 ->
  Forall (fun a => is_Some (action_type a)) q1 ->
  Forall (fun a => resent (forgetable_actions self) a = false) q1 ->
  is_Some (action_type action) ->
  resent (forgetable_actions self) action = true ->
  send_awaiting_actions self w =
    (Raise AttributeError, set_awaiting_actions q2 self, w).
Proof.
  intros Hp Hq Hall Hno [t Ht] Hres.
  unfold send_awaiting_actions, mbind, M_bind, get_self. rewrite Hq.
  rewrite send_awaiting_actions_from_app by auto.
  assert (filter (fun a => resent (forgetable_actions self) a) q1 = [])
    as Hnone.
  { clear -Hno. induction q1 as [|a q1 IH]; [done|].
    apply Forall_cons in Hno as [Ha Hno].
    rewrite filter_cons_False by (rewrite Ha; exact (fun x => x)). by apply IH. }
  rewrite Hnone. cbn [fmap list_fmap]. rewrite add_trace_nil.
  unfold action_type in Ht.
  destruct (PyDict.get (lower (lit "action")) (fields action))
    as [name|] eqn:Hname; [|done].
  assert (negb (bool_decide (lower name ∈ forgetable_actions self))
          && negb (done action) = true) as Hr.
  { rewrite <- Hres. unfold resent, is_forgetable, action_type.
    by rewrite Hname. }
  apply andb_true_iff in Hr as [Hf Hd].
  cbn [send_awaiting_actions_from].
  unfold mbind at 1, M_bind at 1, update at 1.
  unfold mbind at 1, M_bind at 1, lift at 1, action_getitem.
  rewrite Hname.
  unfold mbind at 1, M_bind at 1, get_self at 1.
  unfold mbind at 1, M_bind at 1.
  assert (forall q : list Action, forgetable_actions
                      (set_awaiting_actions q2
                         match q1 with
                         | [] => self
                         | _ :: _ => set_awaiting_actions (action :: q2) self
                         end) = forgetable_actions self) as Hfa
    by (intros _; by destruct q1).
  rewrite (Hfa []), Hf, Hd.
  unfold send_action, protocol_send_, mbind at 1, M_bind at 1, get_self at 1.
  assert (protocol
            (set_awaiting_actions q2
               match q1 with
               | [] => self
               | _ :: _ => set_awaiting_actions (action :: q2) self
               end) = None) as -> by (by destruct q1).
  unfold raise. by destruct q1.
Qed.

End MoreQueue.

Section Keepalive.
Context `{Env} `{Matcher}.

Lemma pending_pings_app (es1 es2 : list Effect) (pending : list TimerHandle) :
  pending_pings (es1 ++ es2) pending
    = pending_pings es2 (pending_pings es1 pending).
Proof.
  revert pending. induction es1 as [|e es1 IH]; intros pending; [done|].
  destruct e as [f args|delay [n| |] h|h|a l|p|c args]; simpl; apply IH.
Qed.

Lemma filter_other_handle (old : TimerHandle) :
  filter (fun h' : TimerHandle => h' <> old) [old] = [].
Proof. by rewrite filter_cons_False by (intros Hne; by apply Hne). Qed.

(** X8: there is never a second keepalive timer.  On a session whose loop is
    set and whose only keepalive timer scheduled and not cancelled is
    [self.pinger], this is still so after [login], whatever the future
    holds (a record or an exception), and after [connection_lost], after
    which no keepalive timer is left. *)
Theorem keepalive_timer_is_single (self : Manager) (w : World) :
  loop self = Some tt ->
  keepalive_ok self w ->
  (forall future_result,
     keepalive_ok (login future_result self w).1.2
                  (login future_result self w).2) /\
  (forall exc,
     keepalive_ok (connection_lost exc self w).1.2
                  (connection_lost exc self w).2 /\
     pending_pings (trace (connection_lost exc self w).2) [] = []).
Proof.
  intros Hloop Hok. unfold keepalive_ok in *. split.
  - intros [resp|e]; [|exact Hok].
    unfold login, loop_call_soon, loop_call_later, the_loop, emit, update,
      get_self, lift, fresh_handle, add_trace, mbind, M_bind, mret, M_ret.
    destruct self as [c l cb pr pa au af aw [old|] co]; simpl in *;
      destruct (success resp); simpl; rewrite ?Hloop; simpl; rewrite ?Hloop;
      simpl; rewrite <- ?app_assoc, ?app_nil_r, pending_pings_app, Hok;
      simpl; by rewrite ?filter_other_handle.
  - intros exc.
    unfold connection_lost, loop_call_soon, loop_call_later, the_loop, emit,
      update, get_self, fresh_handle, add_trace, mbind, M_bind, mret, M_ret.
    destruct self as [c l cb pr pa au af aw [old|] co]; simpl in *;
      rewrite Hloop; simpl; rewrite <- ?app_assoc, pending_pings_app, Hok;
      simpl; by rewrite ?filter_other_handle.
Qed.

End Keepalive.

(** ** The model at work on concrete blocks and sessions *)

Import Ascii7.

(** C2, as stated, fails: the block [event: Hangup / Channel: SIP/1] has the
    key [event] in its header map, which is [Event] up to letter case, and the
    decoder returns [None] for it; and in the block with the lines
    [Variable: a] and [variable: b] the two keys, equal up to letter case,
    stay two entries of one string each. *)
Lemma from_line_keys_not_caseless :
  parse_headers Samples.lowercase_event_lines [] =
    Ret [(lit "event", Scalar (lit "Hangup"));
         (lit "Channel", Scalar (lit "SIP/1"))] /\
  mem_nocase (lit "Event")
    [(lit "event", Scalar (lit "Hangup"));
     (lit "Channel", Scalar (lit "SIP/1"))] = true /\
  from_line (session := unit) Samples.lowercase_event = Ret None /\
  parse_headers Samples.mixed_case_lines [] =
    Ret [(lit "Event", Scalar (lit "VarSet"));
         (lit "Variable", Scalar (lit "a"));
         (lit "variable", Scalar (lit "b"))] /\
  values_of_nocase (lit "variable") Samples.mixed_case_lines
    = [lit "a"; lit "b"].
Proof. repeat split; vm_compute; reflexivity. Qed.

(** C2 as the code has it, on the block [Event: VarSet / Variable: a /
    variable: b]. *)
Lemma from_line_keys_as_spelled_witness :
  PyStr.split EOL Samples.mixed_case = Ret Samples.mixed_case_lines /\
  extract_body Samples.mixed_case_lines = Ret ([], Samples.mixed_case_lines) /\
  exists headers,
    parse_headers Samples.mixed_case_lines [] = Ret headers /\
    (forall k, PyDict.get k headers
               = collect (values_of k Samples.mixed_case_lines)) /\
    (from_line (session := unit) Samples.mixed_case
       = Ret (Some (Message_init headers [])) <->
     PyDict.mem (lit "Event") headers = true \/
     PyDict.mem (lit "Response") headers = true) /\
    (from_line (session := unit) Samples.mixed_case = Ret None <->
     PyDict.mem (lit "Event") headers = false /\
     PyDict.mem (lit "Response") headers = false).
Proof.
  assert (PyStr.split EOL Samples.mixed_case = Ret Samples.mixed_case_lines)
    as Hs by (vm_compute; reflexivity).
  assert (extract_body Samples.mixed_case_lines
          = Ret ([], Samples.mixed_case_lines))
    as Hb by (vm_compute; reflexivity).
  exact (conj Hs (conj Hb (from_line_keys_as_spelled _ _ _ _ Hs Hb))).
Defined.

(** C3 on a block with the key [ChanVariable] on three lines and the key
    [Privilege] on one. *)
Lemma header_string_or_list_witness :
  PyStr.split EOL Samples.repeated_key = Ret Samples.repeated_key_lines /\
  extract_body Samples.repeated_key_lines
    = Ret ([], Samples.repeated_key_lines) /\
  exists headers,
    parse_headers Samples.repeated_key_lines [] = Ret headers /\
    PyDict.get (lit "ChanVariable") headers
      = Some (Multi [lit "FROM_DID="; lit "SIPURI=sip:42"; lit "X=1"]) /\
    PyDict.get (lit "Privilege") headers = Some (Scalar (lit "Call")).
Proof.
  assert (PyStr.split EOL Samples.repeated_key = Ret Samples.repeated_key_lines)
    as Hs by (vm_compute; reflexivity).
  assert (extract_body Samples.repeated_key_lines
          = Ret ([], Samples.repeated_key_lines))
    as Hb by (vm_compute; reflexivity).
  split; [exact Hs|]. split; [exact Hb|].
  destruct (header_string_or_list (session := unit) _ _ _ _
              (lit "ChanVariable") Hs Hb)
    as (headers & Hp & _ & _ & _ & Hmulti & _).
  destruct (header_string_or_list (session := unit) _ _ _ _
              (lit "Privilege") Hs Hb)
    as (headers' & Hp' & _ & _ & Hone & _).
  exists headers. split; [exact Hp|]. split.
  - apply Hmulti. vm_compute. lia.
  - rewrite Hp in Hp'. injection Hp' as <-. apply Hone. vm_compute. reflexivity.
Defined.

(** C5 on the block [Event: ReceivedSMS / Sender: 123 /
    Message: %68%65%6c%6c%6f+you /] (an empty last line): the body is
    [hello you], and the two first lines are the header lines. *)
Lemma received_sms_body_witness :
  extract_body (Samples.sms_header_lines ++
                [lit "Message" ++ lit ": " ++ lit "%68%65%6c%6c%6f+you"; []])
    = Ret (lit "hello you", Samples.sms_header_lines) /\
  from_line (session := unit) Samples.sms_block =
    Ret (Some (Message_init
                 [(lit "Event", Scalar (lit "ReceivedSMS"));
                  (lit "Sender", Scalar (lit "123"))]
                 (lit "hello you"))).
Proof.
  destruct (received_sms_body (session := unit) Samples.sms_block
              Samples.sms_header_lines (lit "Message")
              (lit "%68%65%6c%6c%6f+you") [])
    as (found & hl & Hb & _ & Hf); try (vm_compute; reflexivity).
  assert (extract_body
            (Samples.sms_header_lines ++
             [lit "Message" ++ lit ": " ++ lit "%68%65%6c%6c%6f+you"; []])
          = Ret (lit "hello you", Samples.sms_header_lines)) as Hc
    by (vm_compute; reflexivity).
  rewrite Hc in Hb. injection Hb as <- <-.
  split; [exact Hc|]. rewrite Hf. vm_compute. reflexivity.
Defined.

(** A leading U+FEFF is dropped from the body, once. *)
Example sms_body_without_bom :
  extract_body [lit "Event: ReceivedSMS";
                lit "Message: " ++ BOM ++ BOM ++ lit "hi"; []]
  = Ret (BOM ++ lit "hi", [lit "Event: ReceivedSMS"]).
Proof. vm_compute. reflexivity. Qed.

(** An empty body makes the decoder take the lines before it, from the last
    one, until one is not empty: here the line [Sender: 123]. *)
Example sms_empty_body_takes_a_line :
  extract_body (Ascii7.lines ["Event: ReceivedSMS"; "Sender: 123"; "";
                              "Message: "; ""])
  = Ret (lit "Sender: 123", [lit "Event: ReceivedSMS"]).
Proof. vm_compute. reflexivity. Qed.

(** The body of a [Response: Follows] block is its last line that is not
    empty, and the record is a success. *)
Example response_follows :
  (fun r => match r with
            | Ret (Some m) => Some (content_of m, success m)
            | _ => None
            end)
    (from_line (session := unit)
       (Ascii7.block ["Response: Follows"; "Privilege: Command"; "body text";
                      ""; ""]))
  = Some (Scalar (lit "body text"), true).
Proof. vm_compute. reflexivity. Qed.

(** C10: the decoder is not total.  A block that is the single line
    [Event: ReceivedSMS] makes it pop from an empty list ([IndexError]); a
    block that starts with the line [Event: ReceivedSMS] and whose line before
    the last holds no [": "] makes the unpacking of the split fail
    ([ValueError]).  Both happen on the blocks written with CR LF. *)
Theorem from_line_not_total :
  (forall (E : Env) (session : Type) (line : str),
     PyStr.split EOL line = Ret [lit "Event: ReceivedSMS"] ->
     from_line (session := session) line = Raise IndexError) /\
  (forall (E : Env) (session : Type) (line : str) (pre : list str)
          (bl last : str),
     PyStr.split EOL line = Ret (pre ++ [bl; last]) ->
     first_item (pre ++ [bl; last]) = Ret (lit "Event: ReceivedSMS") ->
     PyStr.contains (lit ": ") bl = false ->
     from_line (session := session) line = Raise ValueError) /\
  from_line (session := unit) Samples.sms_only_first_line = Raise IndexError /\
  from_line (session := unit) Samples.sms_without_separator = Raise ValueError.
Proof.
  split; [|split; [|split]].
  - intros E session line Hs.
    apply (from_line_raises_of_body line _ _ Hs), extract_body_one_line.
  - intros E session line pre bl last Hs H0 Hc.
    apply (from_line_raises_of_body line _ _ Hs).
    by apply extract_body_no_separator.
  - vm_compute. reflexivity.
  - vm_compute. reflexivity.
Qed.



Lemma registry_ok_started : registry_ok Samples.started.
Proof. exact (registry_ok_init defaults (mkWorld [] 0)). Qed.

Lemma registry_ok_subscribed : registry_ok Samples.subscribed.
Proof.
  unfold Samples.subscribed. cbv zeta.
  do 3 apply register_event_keeps_registry. exact registry_ok_started.
Qed.

(** C1, as stated, fails: of the three queued actions (a [Ping] whose sink is
    pending, a [Status] whose sink is done, a [Status] whose sink is pending)
    the drain sends the last one only, while the claim has all three sent
    again, the first because it is not done and the second because it is not
    forgetable. *)
Lemma drain_not_as_claimed :
  trace (send_awaiting_actions Samples.queued Samples.world0).2 =
    [protocol_send Samples.status_pending (Some true)] /\
  (fun a => protocol_send a (as_list a))
    <$> filter (fun a => resent_as_claimed
                           (forgetable_actions Samples.queued) a)
          (awaiting_actions Samples.queued) =
    [protocol_send Samples.ping_action None;
     protocol_send Samples.status_done (Some false);
     protocol_send Samples.status_pending (Some true)].
Proof. split; vm_compute; reflexivity. Qed.

(** C1 as the code has it, on the session with the three queued actions. *)
Lemma send_awaiting_actions_outcome_witness :
  exists self',
    send_awaiting_actions Samples.queued Samples.world0 =
      (Ret tt, self',
       add_trace [protocol_send Samples.status_pending (Some true)]
         Samples.world0) /\
    awaiting_actions self' = [].
Proof.
  assert (protocol Samples.queued = Some tt) as Hp by reflexivity.
  assert (Forall (fun a => is_Some (action_type a))
            (awaiting_actions Samples.queued)) as Hall.
  { repeat constructor; vm_compute; eauto. }
  destruct (send_awaiting_actions_outcome Samples.queued Samples.world0 Hp Hall)
    as (self' & Hrun & Hq & _).
  exists self'. split; [|exact Hq].
  rewrite Hrun. vm_compute. reflexivity.
Defined.

(** C6 on a started session whose Login is answered [Response: Error]. *)
Lemma login_outcome_witness :
  exists self',
    login (Ret Samples.error_response) Samples.started Samples.world0 =
      (Ret false, self',
       {| trace := [cancel 7; call_later 10 bound_ping 8];
          next_handle := 9 |}) /\
    authenticated self' = false /\
    pinger self' = Some 8.
Proof.
  destruct (login_outcome Samples.started Samples.world0
              Samples.error_response eq_refl)
    as (self' & Hrun & Hauth & _ & Hpinger & _).
  exists self'. split; [exact Hrun|]. split; [exact Hauth|exact Hpinger].
Defined.

(** C7 on a started session that loses its connection. *)
Lemma connection_lost_outcome_witness :
  exists self',
    connection_lost (Some (Error (lit "reset"))) Samples.started
      Samples.world0 =
      (Ret tt, self',
       {| trace := [call_soon on_disconnect
                      [arg_self; arg_exc (Some (Error (lit "reset")))];
                    cancel 7;
                    call_later 2 bound_connect 8];
          next_handle := 9 |}) /\
    _connected self' = false /\
    pinger self' = None.
Proof.
  destruct (connection_lost_outcome Samples.started Samples.world0
              (Some (Error (lit "reset"))) eq_refl)
    as (self' & Hrun & Hconn & Hpinger & _).
  exists self'. split; [exact Hrun|]. split; [exact Hconn|exact Hpinger].
Defined.

(** C8 on the session with the subscriptions [FullyBooted], [Hang*] (two
    callbacks) and [*], for the event [Hangup]. *)
Lemma dispatch_outcome_witness :
  dispatch Samples.hangup_event Samples.subscribed Samples.world0 =
    (Ret [lit "Hang*"; lit "*"], Samples.subscribed,
     add_trace
       (let event := {| items := items Samples.hangup_event;
                        manager := Some Samples.subscribed |} in
        [call (callable 1) [arg_self; arg_event event];
         call (callable 2) [arg_self; arg_event event];
         call (callable 3) [arg_self; arg_event event]])
       Samples.world0).
Proof.
  assert (ci_getattr (lit "event") (items Samples.hangup_event)
          = Scalar (lit "Hangup")) as Hname by (vm_compute; reflexivity).
  destruct (dispatch_outcome Samples.hangup_event (lit "Hangup")
              Samples.subscribed Samples.world0 registry_ok_subscribed Hname)
    as (Hrun & _).
  rewrite Hrun. vm_compute. reflexivity.
Defined.

(** C9 on the same session, for one more callback under [Hang*]. *)
Lemma register_event_outcome_witness :
  exists self' w',
    register_event (lit "Hang*") (Some (callable 4)) Samples.subscribed
      Samples.world0 = (Ret (registered (callable 4)), self', w') /\
    registry_ok self' /\
    callbacks_of self' (lit "Hang*") = [callable 1; callable 2; callable 4] /\
    patterns self' = patterns Samples.subscribed /\
    w' = Samples.world0.
Proof.
  destruct (register_event_outcome (lit "Hang*") (callable 4)
              Samples.subscribed Samples.world0 registry_ok_subscribed)
    as (self' & w' & Hrun & Hok & Hcbs & _ & _ & Hknown).
  exists self', w'. split; [exact Hrun|]. split; [exact Hok|]. split.
  - rewrite Hcbs. vm_compute. reflexivity.
  - apply Hknown. vm_compute. do 1 constructor. constructor.
Defined.

(** X1 on the block of the single line [Event: ReceivedSMS]. *)
Lemma from_line_raises_only_on_sms_witness :
  (EOL = [] /\ IndexError = ValueError) \/
  (exists mlines,
     PyStr.split EOL Samples.sms_only_first_line = Ret mlines /\
     first_item mlines = Ret (lit "Event: ReceivedSMS") /\
     ((mlines = [lit "Event: ReceivedSMS"] /\ IndexError = IndexError) \/
      (exists pre bl last,
         mlines = pre ++ [bl; last] /\
         PyStr.contains (lit ": ") bl = false /\
         IndexError = ValueError))).
Proof.
  apply (from_line_raises_only_on_sms (session := unit)).
  vm_compute. reflexivity.
Defined.

(** X2 on the block [Response: Follows / Privilege: Command / body text]
    followed by two empty lines: the body is [body text]. *)
Lemma response_body_is_last_nonempty_line_witness :
  exists (body : str) (hl : list str) (n : nat) (headers : PyDict.t hvalue),
    Samples.follows_lines = hl ++ body :: replicate n [] /\
    body <> [] /\
    parse_headers hl [] = Ret headers /\
    from_line (session := unit) Samples.follows_block =
      Ret (if PyDict.mem (lit "Event") headers
              || PyDict.mem (lit "Response") headers
           then Some (Message_init headers body) else None).
Proof.
  apply (response_body_is_last_nonempty_line (session := unit)
           Samples.follows_block Samples.follows_lines
           (lit "Response: Follows")).
  - vm_compute. reflexivity.
  - reflexivity.
  - reflexivity.
  - intros Heq. vm_compute in Heq. discriminate Heq.
Defined.

(** X3 on the block [Response: Follows] followed by two empty lines. *)
Lemma body_only_block_is_no_message_witness :
  extract_body (lit "Response: Follows" :: replicate 2 [])
    = Ret (lit "Response: Follows", []) /\
  from_line (session := unit) Samples.body_only_block = Ret None.
Proof.
  apply (body_only_block_is_no_message (session := unit)).
  - vm_compute. reflexivity.
  - reflexivity.
  - intros Heq. vm_compute in Heq. discriminate Heq.
Defined.

(** X4 on three headers, one of them with [": "] in its value. *)
Lemma parse_headers_of_lines_witness :
  parse_headers
    (header_line <$> [(lit "Event", lit "Newexten");
                      (lit "AppData", lit "SIP/100: ringing");
                      (lit "Uniqueid", lit "1.2")]) []
  = Ret [(lit "Event", Scalar (lit "Newexten"));
         (lit "AppData", Scalar (lit "SIP/100: ringing"));
         (lit "Uniqueid", Scalar (lit "1.2"))].
Proof.
  apply (parse_headers_of_lines
           [(lit "Event", lit "Newexten");
            (lit "AppData", lit "SIP/100: ringing");
            (lit "Uniqueid", lit "1.2")]).
  - compute_done.
  - compute_done.
Defined.


(** X6 on the record of the docstring: [getdict('chanvariable')['sipuri']]. *)
Lemma getdict_outcome_witness :
  exists d,
    getdict (lit "chanvariable") Samples.chanvariable_response = Ret d /\
    PyDict.get (lower (lit "SipURI")) d
      = Some (Scalar (lit "sip:42@10.10.10.1:4242")) /\
    PyDict.get (lower (lit "from_did")) d = Some (Scalar []) /\
    getdict (lit "response") Samples.chanvariable_response = Raise TypeError /\
    getdict (lit "missing") Samples.chanvariable_response = Raise TypeError.
Proof.
  destruct (getdict_outcome (lit "chanvariable") Samples.chanvariable_response)
    as (_ & _ & Hlist).
  destruct (Hlist [lit "FROM_DID="; lit "SIPURI=sip:42@10.10.10.1:4242"])
    as [_ Hok]; [vm_compute; reflexivity|].
  destruct Hok as (d & Hd & Hget); [compute_done|].
  exists d. split; [exact Hd|].
  split; [rewrite Hget; vm_compute; reflexivity|].
  split; [rewrite Hget; vm_compute; reflexivity|].
  split.
  - destruct (getdict_outcome (lit "response") Samples.chanvariable_response)
      as (_ & Hscalar & _).
    apply (Hscalar (lit "Success")). vm_compute. reflexivity.
  - destruct (getdict_outcome (lit "missing") Samples.chanvariable_response)
      as (Hnone & _).
    apply Hnone. vm_compute. reflexivity.
Defined.

(** X8 on the started session, in the world where its timer was
    scheduled. *)
Lemma keepalive_timer_is_single_witness :
  keepalive_ok
    (login (Ret Samples.success_response) Samples.started
       Samples.world_started).1.2
    (login (Ret Samples.success_response) Samples.started
       Samples.world_started).2 /\
  pending_pings
    (trace (connection_lost None Samples.started Samples.world_started).2) []
    = [].
Proof.
  destruct (keepalive_timer_is_single Samples.started Samples.world_started)
    as [Hlogin Hlost]; [reflexivity|reflexivity|].
  split; [apply Hlogin|apply Hlost].
Defined.

(** X9 on the queue [Status (pending); an action without header; Ping]: the
    first is sent, the second raises, the third stays queued. *)
Lemma send_awaiting_actions_key_error_witness :
  send_awaiting_actions Samples.queued_untyped Samples.world0 =
    (Raise KeyError,
     set_awaiting_actions [Samples.ping_action] Samples.queued_untyped,
     add_trace [protocol_send Samples.status_pending (Some true)]
       Samples.world0).
Proof.
  rewrite (send_awaiting_actions_key_error Samples.queued_untyped
             Samples.world0 [Samples.status_pending] [Samples.ping_action]
             Samples.untyped_action).
  - vm_compute. reflexivity.
  - reflexivity.
  - reflexivity.
  - repeat constructor. vm_compute. eauto.
  - vm_compute. reflexivity.
Defined.

(** X10 on the session just after [__init__] with the queue [Ping; Status
    (pending); Status (done)]: the pending [Status] is lost. *)
Lemma send_awaiting_actions_without_protocol_witness :
  send_awaiting_actions Samples.queued_early Samples.world0 =
    (Raise AttributeError,
     set_awaiting_actions [Samples.status_done] Samples.queued_early,
     Samples.world0).
Proof.
  apply (send_awaiting_actions_without_protocol Samples.queued_early
           Samples.world0 [Samples.ping_action] [Samples.status_done]
           Samples.status_pending).
  - reflexivity.
  - reflexivity.
  - repeat constructor. vm_compute. eauto.
  - repeat constructor.
  - vm_compute. eauto.
  - vm_compute. reflexivity.
Defined.

(** X11 on the record decoded from a block with two [Event] lines. *)
Lemma dispatch_list_valued_event_witness :
  from_line Samples.two_events_block = Ret (Some Samples.two_events) /\
  dispatch Samples.two_events Samples.subscribed Samples.world0 =
    (Raise TypeError, Samples.subscribed, Samples.world0).
Proof.
  split; [vm_compute; reflexivity|].
  destruct (dispatch_list_valued_event Samples.two_events
              [lit "Newchannel"; lit "Hangup"] Samples.subscribed
              Samples.world0) as [Hraise _]; [vm_compute; reflexivity|].
  apply Hraise. vm_compute. discriminate.
Defined.

(** X12 on the started session: a callback registered under the new pattern
    [Hang*] is called for the event [Hangup]. *)
Lemma dispatch_after_register_event_witness :
  exists self' w',
    register_event (lit "Hang*") (Some (callable 5)) Samples.started
      Samples.world0 = (Ret (registered (callable 5)), self', w') /\
    dispatch Samples.hangup_event self' Samples.world0 =
      (Ret [lit "Hang*"], self',
       add_trace
         [call (callable 5)
            [arg_self;
             arg_event {| items := items Samples.hangup_event;
                          manager := Some self' |}]]
         Samples.world0).
Proof.
  destruct (register_event (lit "Hang*") (Some (callable 5)) Samples.started
              Samples.world0) as [[r self'] w'] eqn:Hreg.
  assert (r = Ret (registered (callable 5))) as ->.
  { vm_compute in Hreg. by injection Hreg as <- _ _. }
  assert (ci_getattr (lit "event") (items Samples.hangup_event)
          = Scalar (lit "Hangup")) as Hname by (vm_compute; reflexivity).
  destruct (dispatch_after_register_event (lit "Hang*") (callable 5)
              Samples.hangup_event (lit "Hangup") Samples.started self'
              Samples.world0 w' Samples.world0 _
              registry_ok_started Hname Hreg)
    as (Hmatching & _ & Hrun & Hcalls).
  exists self', w'. split; [reflexivity|].
  rewrite Hrun, Hcalls, Hmatching; [reflexivity|compute_done|reflexivity].
Defined.


